(** * Photoshop layer scripts of poster-tools: model and properties

    A shallow embedding of the ExtendScript files under [ps-scripts/]:
    [toggle-vis-by-prefix.jsx] (which also carries the rename-groups
    script), [hide-all-text-layers.jsx] and [export-all-groups.jsx].

    The host document is a finite tree of layers.  The scripts only read
    the structure and assign [visible] and [name] on existing nodes, and the
    host guarantees that no layer object occurs twice in the tree, so an
    in-place assignment is rendered as a functional update of the node at
    its position.  Counters are natural numbers (the scripts only ever add
    one to them), strings are byte strings, and a script run returns the
    application it leaves together with the notices and files it
    produced. *)

From Stdlib Require Import List Bool Arith ZArith Lia.
From Stdlib Require Import Strings.String Strings.Ascii.
From Stdlib Require Import Numbers.DecimalString.
Import ListNotations.

Local Open Scope string_scope.
Local Open Scope list_scope.

(** ** Host document model *)

(** [LayerKind] of an art layer; the scripts compare against
    [LayerKind.TEXT] only. *)
Inductive LayerKind : Type :=
| NORMAL
| TEXT
| SOLIDFILL
| SMARTOBJECT.

Definition LayerKind_eqb (a b : LayerKind) : bool :=
  match a, b with
  | NORMAL, NORMAL | TEXT, TEXT | SOLIDFILL, SOLIDFILL
  | SMARTOBJECT, SMARTOBJECT => true
  | _, _ => false
  end.

(** A layer is an [ArtLayer] (leaf; [contents] is [textItem.contents] and is
    read by the scripts only when [kind] is [TEXT]) or a [LayerSet] (group)
    holding its child [layers] in host order. *)
#[local] Unset Elimination Schemes.
Inductive Layer : Type :=
| ArtLayer (name : string) (visible : bool) (kind : LayerKind)
           (contents : string)
| LayerSet (name : string) (visible : bool) (layers : list Layer).
#[local] Set Elimination Schemes.

(** [layer.typename == "LayerSet"] *)
Definition isLayerSet (l : Layer) : bool :=
  match l with
  | LayerSet _ _ _ => true
  | ArtLayer _ _ _ _ => false
  end.

Definition name (l : Layer) : string :=
  match l with
  | ArtLayer n _ _ _ => n
  | LayerSet n _ _ => n
  end.

Definition visible (l : Layer) : bool :=
  match l with
  | ArtLayer _ v _ _ => v
  | LayerSet _ v _ => v
  end.

(** [layer.kind]: a layer set has no such property ([undefined]). *)
Definition kind (l : Layer) : option LayerKind :=
  match l with
  | ArtLayer _ _ k _ => Some k
  | LayerSet _ _ _ => None
  end.

Definition layers (l : Layer) : list Layer :=
  match l with
  | ArtLayer _ _ _ _ => []
  | LayerSet _ _ ls => ls
  end.

(** [layer.visible = v] *)
Definition setVisible (v : bool) (l : Layer) : Layer :=
  match l with
  | ArtLayer n _ k c => ArtLayer n v k c
  | LayerSet n _ ls => LayerSet n v ls
  end.

(** [layer.name = n] *)
Definition setName (n : string) (l : Layer) : Layer :=
  match l with
  | ArtLayer _ v k c => ArtLayer n v k c
  | LayerSet _ v ls => LayerSet n v ls
  end.

(** [layer.kind == LayerKind.TEXT], false for a layer set. *)
Definition isText (l : Layer) : bool :=
  match kind l with
  | Some k => LayerKind_eqb k TEXT
  | None => false
  end.

(** [container.artLayers] and [container.layerSets]: the direct children of
    each sort, in host order. *)
Definition artLayers (ls : list Layer) : list Layer :=
  filter (fun l => negb (isLayerSet l)) ls.

Definition layerSets (ls : list Layer) : list Layer :=
  filter isLayerSet ls.

Record Document : Type := mkDocument { docLayers : list Layer }.

(** The application: either no document is open, or there is an active
    document among the open ones ([app.documents] is
    [before ++ active :: after]). *)
Inductive App : Type :=
| NoDocuments
| Open (before : list Document) (activeDocument : Document)
       (after : list Document).

Definition documents (a : App) : list Document :=
  match a with
  | NoDocuments => []
  | Open b d r => b ++ d :: r
  end.

(** What a script run leaves behind besides the document: the blocking
    notices it raised with [alert], and the files written by
    [doc.saveAs], each with the top-level layers as they stood. *)
Inductive Event : Type :=
| Alert (message : string)
| SaveAs (file : string) (shown : list Layer).

(** ** Addressing nodes

    A node at any depth is addressed by the child indices leading to it from
    the top-level layer list. *)
Fixpoint nodeAt (ls : list Layer) (path : list nat) : option Layer :=
  match path with
  | [] => None
  | i :: rest =>
      match nth_error ls i with
      | None => None
      | Some l =>
          match rest with
          | [] => Some l
          | _ :: _ => nodeAt (layers l) rest
          end
      end
  end.

(** ** String primitives of the host language *)

(** [s.indexOf(search)]: position of the first occurrence, or -1. *)
Definition indexOf (s search : string) : Z :=
  match String.index 0 search s with
  | Some i => Z.of_nat i
  | None => (-1)%Z
  end.

(** [s.toLowerCase()].  Strings are byte strings here; only the letters
    A-Z are mapped, which is all that can turn a string into ["show"] or
    ["hide"]. *)
Definition lowerAscii (c : ascii) : ascii :=
  let n := nat_of_ascii c in
  if ((65 <=? n)%nat && (n <=? 90)%nat)%bool then ascii_of_nat (n + 32) else c.

Fixpoint toLowerCase (s : string) : string :=
  match s with
  | EmptyString => EmptyString
  | String c r => String (lowerAscii c) (toLowerCase r)
  end.

(** A count converted by [+] to a string: its decimal digits. *)
Definition numberToString (n : nat) : string :=
  NilEmpty.string_of_uint (Nat.to_uint n).

(** The line feed written [\n] in the scripts. *)
Definition LF : string := String (ascii_of_nat 10) EmptyString.

(** A value that is a string or [null], as returned by [prompt] and by
    [getTextFromGroup].  In a condition, [null] and the empty string are
    false and every other string is true. *)
Definition truthy (v : option string) : bool :=
  match v with
  | Some s => negb (s =? "")
  | None => false
  end.

(** [s.replace(/[class]/g, rep)] for a one-character class: every character
    of the class is replaced, the others are kept. *)
Fixpoint replaceClass (class : ascii -> bool) (rep : string) (s : string)
  : string :=
  match s with
  | EmptyString => EmptyString
  | String c r =>
      if class c then rep ++ replaceClass class rep r
      else String c (replaceClass class rep r)
  end.

(** ** Loops over a layer collection

    [for (var i = 0; i < items.length; i++) body(items[i])], where the body
    may assign to the item and to the loop's running state. *)
Section ForEach.
Context {A S : Type} (body : A -> S -> A * S).

Fixpoint forEach (items : list A) (s : S) : list A * S :=
  match items with
  | [] => ([], s)
  | x :: rest =>
      let (x', s1) := body x s in
      let (rest', s2) := forEach rest s1 in
      (x' :: rest', s2)
  end.
End ForEach.

(** ** toggle-vis-by-prefix.jsx

    The file holds two scripts one after the other; the first is the
    toggle script. *)
Module ToggleVisByPrefix.

(** The body of the loop of [processLayers] for one [layer]: the prefix
    test with its two assignments, then the recursion into a layer set. *)
Fixpoint processLayer (prefix : string) (shouldShow : bool)
  (layer : Layer) (matchCount : nat) {struct layer} : Layer * nat :=
  match layer with
  | ArtLayer n v k c =>
      if (indexOf n prefix =? 0)%Z
      then (ArtLayer n shouldShow k c, S matchCount)
      else (ArtLayer n v k c, matchCount)
  | LayerSet n v ls =>
      let (v', matchCount) :=
        if (indexOf n prefix =? 0)%Z
        then (shouldShow, S matchCount)
        else (v, matchCount) in
      let (ls', matchCount) :=
        forEach (processLayer prefix shouldShow) ls matchCount in
      (LayerSet n v' ls', matchCount)
  end.

Definition processLayers (layers : list Layer) (prefix : string)
  (shouldShow : bool) (matchCount : nat) : list Layer * nat :=
  forEach (processLayer prefix shouldShow) layers matchCount.

(** [toggleLayersByPrefix()], given the answers to its two prompts ([None]
    when the prompt is dismissed). *)
Definition toggleLayersByPrefix (app : App)
  (prefixAnswer actionAnswer : option string) : App * list Event :=
  match app with
  | NoDocuments => (app, [Alert "Please open a document first."])
  | Open before doc after =>
      match prefixAnswer with
      | Some prefix =>
          if negb (truthy (Some prefix))
          then (app, [Alert "No prefix entered. Operation cancelled."])
          else
            match actionAnswer with
            | Some action =>
                if negb (truthy (Some action))
                then (app, [Alert "No action specified. Operation cancelled."])
                else
                  let action := toLowerCase action in
                  if negb (action =? "show") && negb (action =? "hide")
                  then (app,
                        [Alert "Invalid action. Please enter 'show' or 'hide'."])
                  else
                    let shouldShow := (action =? "show") in
                    let matchCount := 0 in
                    let (layers', matchCount) :=
                      processLayers (docLayers doc) prefix shouldShow
                                    matchCount in
                    let actionText :=
                      if shouldShow then "shown" else "hidden" in
                    (Open before (mkDocument layers') after,
                     [Alert ("Operation complete." ++ LF
                             ++ numberToString matchCount
                             ++ " layer(s) with prefix '" ++ prefix
                             ++ "' were " ++ actionText ++ ".")])
            | None =>
                (app, [Alert "No action specified. Operation cancelled."])
            end
      | None => (app, [Alert "No prefix entered. Operation cancelled."])
      end
  end.

End ToggleVisByPrefix.

(** ** The rename-groups script (second half of toggle-vis-by-prefix.jsx) *)
Module RenameGroups.

(** [lyr.textItem.contents] *)
Definition contents (lyr : Layer) : string :=
  match lyr with
  | ArtLayer _ _ _ c => c
  | LayerSet _ _ _ => ""
  end.

(** A loop [for (k ...) { var result = search(groups[k]);
    if (result) return result; }] followed by [return null]. *)
Section FirstTruthy.
Variable search : Layer -> option string.

Fixpoint firstTruthy (groups : list Layer) : option string :=
  match groups with
  | [] => None
  | g :: rest =>
      let result := search g in
      if truthy result then result else firstTruthy rest
  end.

(** The same loop run over [group.layerSets], which are the layer sets
    among [group.layers] in order: the walk goes along [layers] and passes
    over the art layers ([searchNested_layerSets] below relates the two). *)
Fixpoint searchNested (layers : list Layer) : option string :=
  match layers with
  | [] => None
  | g :: rest =>
      if isLayerSet g then
        let result := search g in
        if truthy result then result else searchNested rest
      else searchNested rest
  end.
End FirstTruthy.

(** [getTextFromGroup(group)]; the script calls it on layer sets only. *)
Fixpoint getTextFromGroup (group : Layer) : option string :=
  match group with
  | ArtLayer _ _ _ _ => None
  | LayerSet _ _ ls =>
      match find isText (artLayers ls) with
      | Some lyr => Some (contents lyr)
      | None => searchNested getTextFromGroup ls
      end
  end.

(** The body of the top-level loop for one [group]. *)
Definition renameGroup (group : Layer) : Layer :=
  let textContent := getTextFromGroup group in
  match textContent with
  | Some text => if truthy textContent then setName text group else group
  | None => group
  end.

(** The loop over [doc.layerSets]: the top-level layer sets are visited
    where they stand among [doc.layers]; art layers are not touched. *)
Definition renameGroups (layers : list Layer) : list Layer :=
  map (fun l => if isLayerSet l then renameGroup l else l) layers.

Definition run (app : App) : App * list Event :=
  match app with
  | NoDocuments => (app, [Alert "No document open!"])
  | Open before doc after =>
      (Open before (mkDocument (renameGroups (docLayers doc))) after,
       [Alert "Done!"])
  end.

End RenameGroups.

(** ** hide-all-text-layers.jsx *)
Module HideAllTextLayers.

(** The body of the loop of [hideTextLayers] for one [layer]. *)
Fixpoint hideTextLayer (layer : Layer) : Layer :=
  match layer with
  | ArtLayer n v k c =>
      if LayerKind_eqb k TEXT then ArtLayer n false k c
      else ArtLayer n v k c
  | LayerSet n v ls => LayerSet n v (map hideTextLayer ls)
  end.

(** [hideTextLayers(container)], on the container's [layers]. *)
Definition hideTextLayers (layers : list Layer) : list Layer :=
  map hideTextLayer layers.

Definition run (app : App) : App * list Event :=
  match app with
  | NoDocuments => (app, [])
  | Open before doc after =>
      (Open before (mkDocument (hideTextLayers (docLayers doc))) after, [])
  end.

End HideAllTextLayers.

(** ** export-all-groups.jsx *)
Module ExportAllGroups.

(** A [Folder]: what it yields in a string concatenation, and its
    [fsName]. *)
Record Folder : Type := mkFolder { path : string; fsName : string }.

(** The character class of the clean-filename pattern:
    slash, backslash, colon, star, question mark, double quote, less-than,
    greater-than, bar. *)
Definition reservedClass (c : ascii) : bool :=
  let n := nat_of_ascii c in
  ((n =? 47) || (n =? 92) || (n =? 58) || (n =? 42) || (n =? 63)
   || (n =? 34) || (n =? 60) || (n =? 62) || (n =? 124))%nat%bool.

Definition cleanFilename (name : string) : string :=
  replaceClass reservedClass "_" name.

(** First loop: remember each top-level visibility, then hide. *)
Definition hideAll (layers : list Layer) : list Layer * list bool :=
  forEach (fun layer originalStates =>
             (setVisible false layer, originalStates ++ [visible layer]))
          layers [].

(** Second loop.  [done] are the layers already visited and [todo] those
    from index [i] on; the file is saved while only the current group is
    shown. *)
Fixpoint exportGroups (exportFolder : Folder) (done todo : list Layer)
  (exportCount : nat) (events : list Event)
  : list Layer * nat * list Event :=
  match todo with
  | [] => (done, exportCount, events)
  | layer :: rest =>
      if isLayerSet layer then
        let layer := setVisible true layer in
        let filename := cleanFilename (name layer) in
        let exportFile :=
          (path exportFolder ++ "/" ++ filename ++ ".png")%string in
        let events := events ++ [SaveAs exportFile (done ++ layer :: rest)] in
        let layer := setVisible false layer in
        exportGroups exportFolder (done ++ [layer]) rest (S exportCount)
                     events
      else
        exportGroups exportFolder (done ++ [layer]) rest exportCount events
  end.

(** Third loop, from index [i]: [layers[i].visible = originalStates[i]].
    (An index past the end of [originalStates] would read [undefined];
    the two lists have the same length, see [hideAll_length].) *)
Fixpoint restoreFrom (originalStates : list bool) (i : nat)
  (layers : list Layer) : list Layer :=
  match layers with
  | [] => []
  | layer :: rest =>
      setVisible (nth i originalStates false) layer
      :: restoreFrom originalStates (S i) rest
  end.

(** [main()], given the answer of the folder dialog. *)
Definition main (doc : Document) (exportFolder : option Folder)
  : Document * list Event :=
  match exportFolder with
  | None => (doc, [])
  | Some exportFolder =>
      let (layers, originalStates) := hideAll (docLayers doc) in
      let '(layers, exportCount, events) :=
        exportGroups exportFolder [] layers 0 [] in
      let layers := restoreFrom originalStates 0 layers in
      (mkDocument layers,
       events ++ [Alert ("Exported " ++ numberToString exportCount
                         ++ " groups as PNG files to:" ++ LF
                         ++ fsName exportFolder)])
  end.

Definition run (app : App) (exportFolder : option Folder)
  : App * list Event :=
  match app with
  | NoDocuments => (app, [Alert "Please open a document first."])
  | Open before doc after =>
      let (doc', events) := main doc exportFolder in
      (Open before doc' after, events)
  end.

End ExportAllGroups.

(** ** Vocabulary of the specification *)

(** "[name] starts with [prefix]": a case-sensitive match at position 0. *)
Definition startsWith (prefix name : string) : bool := String.prefix prefix name.

(** A node followed by all its descendants, and every node of a layer
    list at any depth, leaf layers and containers alike. *)
Fixpoint subtree (l : Layer) : list Layer :=
  l :: match l with
       | ArtLayer _ _ _ _ => []
       | LayerSet _ _ ls => flat_map subtree ls
       end.

Definition allNodes (ls : list Layer) : list Layer := flat_map subtree ls.

(** The number of nodes at any depth whose name starts with [prefix]. *)
Definition countMatching (prefix : string) (ls : list Layer) : nat :=
  List.length (filter (fun n => startsWith prefix (name n)) (allNodes ls)).

(** A container has a Text-kind descendant. *)
Definition hasTextDescendant (group : Layer) : bool :=
  existsb isText (allNodes (layers group)).

(** What the walk of [processLayers] leaves of a node, the count aside:
    matching nodes get [visible = shouldShow], at every depth. *)
Fixpoint toggleNode (prefix : string) (shouldShow : bool) (l : Layer)
  : Layer :=
  match l with
  | ArtLayer n v k c =>
      ArtLayer n (if startsWith prefix n then shouldShow else v) k c
  | LayerSet n v ls =>
      LayerSet n (if startsWith prefix n then shouldShow else v)
               (map (toggleNode prefix shouldShow) ls)
  end.

(** The characters reserved in file names, as the specification lists
    them, by character code: slash, backslash, colon, star, question mark,
    double quote, less-than, greater-than, bar. *)
Definition reservedChars : list ascii :=
  map ascii_of_nat [47; 92; 58; 42; 63; 34; 60; 62; 124].

(** The four operations of the repository, each with the answers the user
    gives to its dialogs. *)
Inductive Operation : Type :=
| ToggleByPrefix (prefixAnswer actionAnswer : option string)
| RenameGroupsFromText
| HideAllText
| ExportGroupsAsImage (exportFolder : option ExportAllGroups.Folder).

Definition runOperation (op : Operation) (app : App) : App * list Event :=
  match op with
  | ToggleByPrefix prefixAnswer actionAnswer =>
      ToggleVisByPrefix.toggleLayersByPrefix app prefixAnswer actionAnswer
  | RenameGroupsFromText => RenameGroups.run app
  | HideAllText => HideAllTextLayers.run app
  | ExportGroupsAsImage exportFolder => ExportAllGroups.run app exportFolder
  end.

(** The completion notice for a count, a prefix and a direction. *)
Definition completionNotice (matchCount : nat) (prefix : string)
  (shouldShow : bool) : string :=
  "Operation complete." ++ LF ++ numberToString matchCount
  ++ " layer(s) with prefix '" ++ prefix ++ "' were "
  ++ (if shouldShow then "shown" else "hidden") ++ ".".

(** A document with a matching leaf, a matching hidden group, a matching
    layer inside a non-matching group, and layers that do not match. *)
Definition sampleLayers : list Layer :=
  [ ArtLayer "BG_Sky" false NORMAL "";
    LayerSet "BG_Hills" false
      [ ArtLayer "Hill" false NORMAL ""; ArtLayer "BG_Far" false TEXT "far" ];
    LayerSet "FG" false [ ArtLayer "BG_Deep" false NORMAL "" ];
    ArtLayer "FG_Tree" false TEXT "tree" ].

(** The search as the specification words it: the first Text-kind node
    among the direct children of the container, and failing that the first
    one found in the nested containers, taken in order, each searched the
    same way. *)
Fixpoint firstTextNode (group : Layer) : option Layer :=
  match group with
  | ArtLayer _ _ _ _ => None
  | LayerSet _ _ ls =>
      match find isText ls with
      | Some t => Some t
      | None =>
          (fix nested (children : list Layer) : option Layer :=
             match children with
             | [] => None
             | g :: rest =>
                 match firstTextNode g with
                 | Some t => Some t
                 | None => nested rest
                 end
             end) ls
      end
  end.

Fixpoint firstTextNested (children : list Layer) : option Layer :=
  match children with
  | [] => None
  | g :: rest =>
      match firstTextNode g with
      | Some t => Some t
      | None => firstTextNested rest
      end
  end.

(** The example of the specification: "Act 1" holds the text "Scene A"
    and an inner group, "Act 2" is empty. *)
Definition actsLayers : list Layer :=
  [ LayerSet "Act 1" true
      [ ArtLayer "title" true TEXT "Scene A"; LayerSet "Inner" true [] ];
    LayerSet "Act 2" true [] ].

(** A group whose first Text child is empty, with a second Text child and
    a nested group holding text. *)
Definition emptyTitleGroup : Layer :=
  LayerSet "Act 1" true
    [ ArtLayer "title" true TEXT "";
      ArtLayer "subtitle" true TEXT "Scene A";
      LayerSet "Inner" true [ ArtLayer "deep" true TEXT "Scene B" ] ].

(** A group whose first nested group yields the empty string and whose
    second nested group yields "Scene C". *)
Definition emptyNestedGroup : Layer :=
  LayerSet "Act 3" true
    [ ArtLayer "frame" true NORMAL "";
      LayerSet "First" true [ ArtLayer "blank" true TEXT "" ];
      LayerSet "Second" true [ ArtLayer "caption" true TEXT "Scene C" ] ].

(** A layer tree with every [visible] flag cleared: the tree as it reads
    when visibility is disregarded. *)
Fixpoint withoutVisibility (l : Layer) : Layer :=
  match l with
  | ArtLayer n _ k c => ArtLayer n false k c
  | LayerSet n _ ls => LayerSet n false (map withoutVisibility ls)
  end.

(** The files written and the notices raised by a run, each in order. *)
Definition savedFiles (events : list Event) : list string :=
  flat_map (fun e => match e with
                     | SaveAs file _ => [file]
                     | Alert _ => []
                     end) events.

Definition notices (events : list Event) : list string :=
  flat_map (fun e => match e with
                     | Alert message => [message]
                     | SaveAs _ _ => []
                     end) events.

(** The file a group is exported to. *)
Definition exportFileName (exportFolder : ExportAllGroups.Folder)
  (group : Layer) : string :=
  ExportAllGroups.path exportFolder ++ "/"
  ++ ExportAllGroups.cleanFilename (name group) ++ ".png".

(** ** Induction on layer trees *)

Section LayerInduction.
Variable P : Layer -> Prop.
Variable Q : list Layer -> Prop.
Hypothesis P_art : forall n v k c, P (ArtLayer n v k c).
Hypothesis P_set : forall n v ls, Q ls -> P (LayerSet n v ls).
Hypothesis Q_nil : Q [].
Hypothesis Q_cons : forall l ls, P l -> Q ls -> Q (l :: ls).

Fixpoint Layer_tree_ind (l : Layer) : P l :=
  match l with
  | ArtLayer n v k c => P_art n v k c
  | LayerSet n v ls =>
      P_set n v ls
        ((fix children (ls : list Layer) : Q ls :=
            match ls with
            | [] => Q_nil
            | x :: r => Q_cons x r (Layer_tree_ind x) (children r)
            end) ls)
  end.

Lemma Layers_tree_ind (ls : list Layer) : Q ls.
Proof.
  induction ls as [|x r IH]; [exact Q_nil|].
  apply Q_cons; [apply Layer_tree_ind | exact IH].
Qed.
End LayerInduction.

(** ** The application *)

(** [app.documents.length] is 0 exactly when no document is open. *)
Lemma documents_length_zero app :
  List.length (documents app) = 0 <-> app = NoDocuments.
Proof.
  destruct app as [|before doc after]; simpl.
  - tauto.
  - rewrite length_app. simpl. split; [lia|discriminate].
Qed.

(** ** Strings *)

Lemma indexOf_zero_startsWith (s search : string) :
  (indexOf s search =? 0)%Z = startsWith search s.
Proof.
  unfold indexOf, startsWith.
  destruct s as [|a s]; simpl.
  - destruct search; reflexivity.
  - destruct search as [|b search]; [reflexivity|].
    destruct (Ascii.ascii_dec b a) as [->|Hne]; simpl.
    + destruct (String.prefix search s); [reflexivity|].
      destruct (String.index 0 (String a search) s); reflexivity.
    + destruct (String.index 0 (String b search) s); reflexivity.
Qed.

(** ** Loops and node addresses *)

Lemma forEach_cons {A S : Type} (body : A -> S -> A * S) x rest s :
  forEach body (x :: rest) s =
  (fst (body x s) :: fst (forEach body rest (snd (body x s))),
   snd (forEach body rest (snd (body x s)))).
Proof.
  simpl. destruct (body x s) as [x' s1]; simpl.
  destruct (forEach body rest s1); reflexivity.
Qed.

Lemma forEach_length {A S : Type} (body : A -> S -> A * S) items s :
  List.length (fst (forEach body items s)) = List.length items.
Proof.
  revert s; induction items as [|x rest IH]; intros s; [reflexivity|].
  rewrite forEach_cons; simpl. now rewrite IH.
Qed.

(** A node-wise transformation that maps the children of a node with
    itself commutes with addressing. *)
Lemma nodeAt_map (g : Layer -> Layer) :
  (forall l, layers (g l) = map g (layers l)) ->
  forall path ls, nodeAt (map g ls) path = option_map g (nodeAt ls path).
Proof.
  intros Hg path.
  induction path as [|i rest IH]; intros ls; [reflexivity|].
  simpl. rewrite nth_error_map.
  destruct (nth_error ls i) as [l|]; simpl; [|reflexivity].
  destruct rest as [|j rest]; [reflexivity|].
  rewrite Hg. apply IH.
Qed.

(** Every addressed node is one of [allNodes], and conversely. *)
Lemma nodeAt_In_allNodes path :
  forall ls node, nodeAt ls path = Some node -> In node (allNodes ls).
Proof.
  induction path as [|i rest IH]; intros ls node H; [discriminate|].
  simpl in H.
  destruct (nth_error ls i) as [l|] eqn:Hi; [|discriminate].
  apply nth_error_In in Hi.
  unfold allNodes. apply in_flat_map. exists l. split; [exact Hi|].
  destruct rest as [|j rest].
  - injection H as <-. destruct l; simpl; auto.
  - apply IH in H. destruct l as [n v k c|n v ls']; simpl in *.
    + contradiction.
    + right. exact H.
Qed.

Lemma In_allNodes_nodeAt :
  forall ls node, In node (allNodes ls) ->
                  exists path, nodeAt ls path = Some node.
Proof.
  intros ls node. revert ls.
  apply (Layers_tree_ind
    (fun l => In node (subtree l) ->
              l = node \/ exists path, nodeAt (layers l) path = Some node)
    (fun ls => In node (allNodes ls) ->
               exists path, nodeAt ls path = Some node)).
  - intros n v k c [H|[]]. now left.
  - intros n v ls IH [H|H]; [now left|]. right. apply IH. exact H.
  - intros [].
  - intros l ls IHl IHls H. unfold allNodes in H. simpl in H.
    apply in_app_or in H. destruct H as [H|H].
    + destruct (IHl H) as [->|[path Hp]].
      * exists [0]. reflexivity.
      * exists (0 :: path). simpl.
        destruct path; [discriminate|exact Hp].
    + destruct (IHls H) as [path Hp].
      destruct path as [|i rest]; [discriminate|].
      exists (S i :: rest). exact Hp.
Qed.

(** ** toggle-vis-by-prefix: the walk *)

Section Toggle.
Import ToggleVisByPrefix.
Variables (prefix : string) (shouldShow : bool).

Lemma toggleNode_layers l :
  layers (toggleNode prefix shouldShow l)
  = map (toggleNode prefix shouldShow) (layers l).
Proof. destruct l; reflexivity. Qed.

Lemma toggleNode_name l : name (toggleNode prefix shouldShow l) = name l.
Proof. destruct l; reflexivity. Qed.

Lemma toggleNode_visible l :
  visible (toggleNode prefix shouldShow l)
  = if startsWith prefix (name l) then shouldShow else visible l.
Proof. destruct l; reflexivity. Qed.

Lemma processLayer_LayerSet n v ls matchCount :
  processLayer prefix shouldShow (LayerSet n v ls) matchCount =
  let hit := startsWith prefix n in
  let r := processLayers ls prefix shouldShow
             (if hit then S matchCount else matchCount) in
  (LayerSet n (if hit then shouldShow else v) (fst r), snd r).
Proof.
  simpl. rewrite indexOf_zero_startsWith. unfold processLayers.
  destruct (startsWith prefix n);
    destruct (forEach (processLayer prefix shouldShow) ls _); reflexivity.
Qed.

Lemma processLayers_cons l ls matchCount :
  processLayers (l :: ls) prefix shouldShow matchCount =
  let r1 := processLayer prefix shouldShow l matchCount in
  let r2 := processLayers ls prefix shouldShow (snd r1) in
  (fst r1 :: fst r2, snd r2).
Proof. unfold processLayers. apply forEach_cons. Qed.

(** The layers that [processLayers] leaves do not depend on the running
    count. *)
Lemma processLayers_fst ls :
  forall matchCount,
    fst (processLayers ls prefix shouldShow matchCount)
    = map (toggleNode prefix shouldShow) ls.
Proof.
  apply (Layers_tree_ind
    (fun l => forall mc, fst (processLayer prefix shouldShow l mc)
                         = toggleNode prefix shouldShow l)
    (fun ls => forall mc, fst (processLayers ls prefix shouldShow mc)
                          = map (toggleNode prefix shouldShow) ls)).
  - intros n v k c mc. simpl. rewrite indexOf_zero_startsWith.
    destruct (startsWith prefix n); reflexivity.
  - intros n v ls' IH mc. rewrite processLayer_LayerSet. simpl.
    now rewrite IH.
  - reflexivity.
  - intros l ls' IHl IHls mc. rewrite processLayers_cons. simpl.
    now rewrite IHl, IHls.
Qed.

Lemma processLayers_snd ls :
  forall matchCount,
    snd (processLayers ls prefix shouldShow matchCount)
    = matchCount + countMatching prefix ls.
Proof.
  apply (Layers_tree_ind
    (fun l => forall mc, snd (processLayer prefix shouldShow l mc)
                         = mc + countMatching prefix [l])
    (fun ls => forall mc, snd (processLayers ls prefix shouldShow mc)
                          = mc + countMatching prefix ls)).
  - intros n v k c mc. simpl. rewrite indexOf_zero_startsWith.
    unfold countMatching; simpl.
    destruct (startsWith prefix n); simpl; lia.
  - intros n v ls' IH mc. rewrite processLayer_LayerSet. simpl.
    rewrite IH. unfold countMatching, allNodes; simpl.
    rewrite app_nil_r.
    destruct (startsWith prefix n); simpl; lia.
  - intros mc. unfold countMatching; simpl. lia.
  - intros l ls' IHl IHls mc. rewrite processLayers_cons. simpl.
    rewrite IHls, IHl. unfold countMatching, allNodes. simpl.
    rewrite app_nil_r, filter_app, length_app. lia.
Qed.

Lemma processLayers_nodeAt ls matchCount path :
  nodeAt (fst (processLayers ls prefix shouldShow matchCount)) path
  = option_map (toggleNode prefix shouldShow) (nodeAt ls path).
Proof.
  rewrite processLayers_fst. apply nodeAt_map. exact toggleNode_layers.
Qed.

End Toggle.

(** ** toggle-vis-by-prefix: the script *)

Section ToggleScript.
Import ToggleVisByPrefix.

Lemma toLowerCase_nonempty action :
  toLowerCase action = "show" \/ toLowerCase action = "hide" ->
  truthy (Some action) = true.
Proof. destruct action; simpl; [intros [H|H]; discriminate | reflexivity]. Qed.

(** With a document open, a non-empty prefix and a valid action the script
    gets as far as the walk, and ends with the completion notice. *)
Lemma toggleLayersByPrefix_runs before doc after prefix action :
  prefix <> "" ->
  toLowerCase action = "show" \/ toLowerCase action = "hide" ->
  toggleLayersByPrefix (Open before doc after) (Some prefix) (Some action)
  = let shouldShow := (toLowerCase action =? "show") in
    let r := processLayers (docLayers doc) prefix shouldShow 0 in
    (Open before (mkDocument (fst r)) after,
     [Alert (completionNotice (snd r) prefix shouldShow)]).
Proof.
  intros Hp Ha. unfold toggleLayersByPrefix.
  assert (Hp' : truthy (Some prefix) = true).
  { simpl. apply String.eqb_neq in Hp. now rewrite Hp. }
  rewrite Hp', (toLowerCase_nonempty action Ha). simpl negb. cbv iota.
  assert (Hv : (negb (toLowerCase action =? "show")
                && negb (toLowerCase action =? "hide"))%bool = false).
  { destruct Ha as [-> | ->]; reflexivity. }
  rewrite Hv. cbv zeta.
  destruct (processLayers (docLayers doc) prefix
              (toLowerCase action =? "show") 0) as [layers' matchCount].
  reflexivity.
Qed.

End ToggleScript.

(** C1.  Toggle-by-prefix with action show: for a document and a non-empty
    prefix, after the run every node at any depth whose name starts with the
    prefix has [visible = true], and every other node has the visibility it
    had before; no node appears, disappears or changes its name. *)
Theorem toggle_show_sets_matching_visible_keeps_others :
  forall before doc after prefix action,
    prefix <> "" ->
    toLowerCase action = "show" ->
    exists layers' notice,
      ToggleVisByPrefix.toggleLayersByPrefix
        (Open before doc after) (Some prefix) (Some action)
      = (Open before (mkDocument layers') after, [Alert notice])
      /\ forall path,
          match nodeAt (docLayers doc) path, nodeAt layers' path with
          | Some node, Some node' =>
              name node' = name node
              /\ visible node'
                 = (if startsWith prefix (name node) then true
                    else visible node)
          | None, None => True
          | _, _ => False
          end.
Proof.
  intros before doc after prefix action Hp Ha.
  rewrite toggleLayersByPrefix_runs by auto.
  rewrite Ha. cbv zeta. simpl String.eqb.
  eexists. eexists. split; [reflexivity|].
  intros path. rewrite processLayers_nodeAt.
  destruct (nodeAt (docLayers doc) path) as [node|]; simpl; [|exact I].
  split; [apply toggleNode_name | apply toggleNode_visible].
Qed.

Lemma toggle_show_sets_matching_visible_keeps_others_witness :
  exists layers' notice,
    ToggleVisByPrefix.toggleLayersByPrefix
      (Open [] (mkDocument sampleLayers) []) (Some "BG_") (Some "Show")
    = (Open [] (mkDocument layers') [], [Alert notice])
    /\ forall path,
        match nodeAt sampleLayers path, nodeAt layers' path with
        | Some node, Some node' =>
            name node' = name node
            /\ visible node'
               = (if startsWith "BG_" (name node) then true
                  else visible node)
        | None, None => True
        | _, _ => False
        end.
Proof.
  apply (toggle_show_sets_matching_visible_keeps_others
           [] (mkDocument sampleLayers) [] "BG_" "Show").
  - discriminate.
  - reflexivity.
Defined.

(** The second example of the specification: hiding by prefix "BG_" on
    three layers hides the first two, leaves the third, and counts 2. *)
Example toggle_hide_BG_example :
  ToggleVisByPrefix.processLayers
    [ ArtLayer "BG_Sky" true NORMAL ""; ArtLayer "BG_Hill" true NORMAL "";
      ArtLayer "FG_Tree" true NORMAL "" ] "BG_" false 0
  = ([ ArtLayer "BG_Sky" false NORMAL ""; ArtLayer "BG_Hill" false NORMAL "";
       ArtLayer "FG_Tree" true NORMAL "" ], 2).
Proof. reflexivity. Qed.

(** C2.  The count that [processLayers] returns to the script, started at
    0, is the number of nodes at any depth (leaf layers and containers)
    whose name starts with the prefix; and whenever the script runs the
    walk, that number is the one written in its completion notice. *)
Theorem toggle_count_is_number_of_matching_nodes :
  (forall layers prefix shouldShow,
      snd (ToggleVisByPrefix.processLayers layers prefix shouldShow 0)
      = countMatching prefix layers)
  /\ (forall before doc after prefix action,
         prefix <> "" ->
         toLowerCase action = "show" \/ toLowerCase action = "hide" ->
         snd (ToggleVisByPrefix.toggleLayersByPrefix
                (Open before doc after) (Some prefix) (Some action))
         = [Alert (completionNotice
                     (countMatching prefix (docLayers doc)) prefix
                     (toLowerCase action =? "show"))]).
Proof.
  split.
  - intros layers prefix shouldShow. now rewrite processLayers_snd.
  - intros before doc after prefix action Hp Ha.
    rewrite toggleLayersByPrefix_runs by assumption.
    cbv zeta. simpl snd. now rewrite processLayers_snd.
Qed.

Lemma toggle_count_is_number_of_matching_nodes_witness :
  snd (ToggleVisByPrefix.toggleLayersByPrefix
         (Open [] (mkDocument sampleLayers) []) (Some "BG_") (Some "HIDE"))
  = [Alert (completionNotice 4 "BG_" false)].
Proof.
  apply (proj2 toggle_count_is_number_of_matching_nodes
           [] (mkDocument sampleLayers) [] "BG_" "HIDE").
  - discriminate.
  - right. reflexivity.
Defined.

(** ** hide-all-text-layers *)

Section HideText.
Import HideAllTextLayers.

Lemma hideTextLayer_layers l :
  layers (hideTextLayer l) = map hideTextLayer (layers l).
Proof.
  destruct l as [n v k c|n v ls]; simpl; [|reflexivity].
  destruct (LayerKind_eqb k TEXT); reflexivity.
Qed.

Lemma hideTextLayer_name l : name (hideTextLayer l) = name l.
Proof.
  destruct l as [n v k c|n v ls]; simpl; [|reflexivity].
  destruct (LayerKind_eqb k TEXT); reflexivity.
Qed.

Lemma hideTextLayer_visible l :
  visible (hideTextLayer l) = if isText l then false else visible l.
Proof.
  destruct l as [n v k c|n v ls]; simpl; [|reflexivity].
  unfold isText; simpl. destruct (LayerKind_eqb k TEXT); reflexivity.
Qed.

Lemma hideTextLayers_nodeAt ls path :
  nodeAt (hideTextLayers ls) path = option_map hideTextLayer (nodeAt ls path).
Proof. apply nodeAt_map. exact hideTextLayer_layers. Qed.

Lemma hideTextLayers_twice ls :
  hideTextLayers (hideTextLayers ls) = hideTextLayers ls.
Proof.
  unfold hideTextLayers. revert ls.
  apply (Layers_tree_ind
    (fun l => hideTextLayer (hideTextLayer l) = hideTextLayer l)
    (fun ls => map hideTextLayer (map hideTextLayer ls)
               = map hideTextLayer ls)).
  - intros n v k c. simpl.
    destruct (LayerKind_eqb k TEXT) eqn:E; simpl; now rewrite E.
  - intros n v ls IH. simpl. now rewrite IH.
  - reflexivity.
  - intros l ls IHl IHls. simpl. now rewrite IHl, IHls.
Qed.

End HideText.

(** C8.  Hide-all-text is idempotent: hiding the text layers of an
    already processed layer tree changes nothing, so a second run of the
    script leaves every node, and with it every [visible] flag, as the
    first run left it. *)
Theorem hide_all_text_idempotent :
  (forall layers,
      HideAllTextLayers.hideTextLayers
        (HideAllTextLayers.hideTextLayers layers)
      = HideAllTextLayers.hideTextLayers layers)
  /\ (forall app,
         fst (HideAllTextLayers.run (fst (HideAllTextLayers.run app)))
         = fst (HideAllTextLayers.run app))
  /\ (forall layers path,
         option_map visible
           (nodeAt (HideAllTextLayers.hideTextLayers
                      (HideAllTextLayers.hideTextLayers layers)) path)
         = option_map visible
             (nodeAt (HideAllTextLayers.hideTextLayers layers) path)).
Proof.
  split; [exact hideTextLayers_twice|]. split.
  - intros [|before doc after]; simpl; [reflexivity|].
    now rewrite hideTextLayers_twice.
  - intros layers path. now rewrite hideTextLayers_twice.
Qed.

(** C10.  The walks never prune on visibility.  Whatever the [visible]
    flags of the containers above a node (the tree is arbitrary, hidden
    containers included): hide-all-text leaves a Text layer at any address
    with [visible = false]; toggle-by-prefix leaves a node whose name
    starts with the prefix with [visible = shouldShow]; and the returned
    count covers every matching node of the tree, hidden or below hidden
    containers or not. *)
Theorem traversal_never_prunes_on_visibility :
  forall layers path node,
    nodeAt layers path = Some node ->
    (isText node = true ->
     exists node',
       nodeAt (HideAllTextLayers.hideTextLayers layers) path = Some node'
       /\ name node' = name node /\ visible node' = false)
    /\ (forall prefix shouldShow matchCount,
           startsWith prefix (name node) = true ->
           exists node',
             nodeAt (fst (ToggleVisByPrefix.processLayers
                            layers prefix shouldShow matchCount)) path
             = Some node'
             /\ name node' = name node /\ visible node' = shouldShow)
    /\ (forall prefix shouldShow matchCount,
           snd (ToggleVisByPrefix.processLayers
                  layers prefix shouldShow matchCount)
           = matchCount
             + List.length
                 (filter (fun n => startsWith prefix (name n))
                         (allNodes layers))).
Proof.
  intros layers path node Hnode. split; [|split].
  - intros Htext. rewrite hideTextLayers_nodeAt, Hnode. simpl.
    eexists. split; [reflexivity|]. split; [apply hideTextLayer_name|].
    now rewrite hideTextLayer_visible, Htext.
  - intros prefix shouldShow matchCount Hstart.
    rewrite processLayers_nodeAt, Hnode. simpl.
    eexists. split; [reflexivity|]. split; [apply toggleNode_name|].
    now rewrite toggleNode_visible, Hstart.
  - intros prefix shouldShow matchCount. apply processLayers_snd.
Qed.

(** In [sampleLayers] the Text layer "BG_Far" lies in the hidden group
    "BG_Hills". *)
Lemma traversal_never_prunes_on_visibility_witness :
  (exists node',
      nodeAt (HideAllTextLayers.hideTextLayers sampleLayers) [1; 1]
      = Some node'
      /\ name node' = "BG_Far" /\ visible node' = false)
  /\ (exists node',
         nodeAt (fst (ToggleVisByPrefix.processLayers
                        sampleLayers "BG_" true 0)) [1; 1]
         = Some node'
         /\ name node' = "BG_Far" /\ visible node' = true)
  /\ snd (ToggleVisByPrefix.processLayers sampleLayers "BG_" true 0) = 4.
Proof.
  destruct (traversal_never_prunes_on_visibility
              sampleLayers [1; 1] (ArtLayer "BG_Far" false TEXT "far")
              eq_refl) as [Hhide [Htoggle Hcount]].
  split; [exact (Hhide eq_refl)|].
  split; [exact (Htoggle "BG_" true 0 eq_refl)|].
  exact (Hcount "BG_" true 0).
Defined.

(** ** rename-groups *)

Section Rename.
Import RenameGroups.

Lemma firstTextNode_LayerSet n v ls :
  firstTextNode (LayerSet n v ls)
  = match find isText ls with
    | Some t => Some t
    | None => firstTextNested ls
    end.
Proof.
  simpl. destruct (find isText ls); [reflexivity|].
  induction ls as [|g rest IH]; [reflexivity|].
  simpl. destruct (firstTextNode g); [reflexivity|exact IH].
Qed.

Lemma searchNested_layerSets search ls :
  searchNested search ls = firstTruthy search (layerSets ls).
Proof.
  induction ls as [|g rest IH]; [reflexivity|].
  simpl. destruct (isLayerSet g); simpl; [|exact IH].
  destruct (truthy (search g)); [reflexivity|exact IH].
Qed.

Lemma searchNested_app search l1 l2 :
  searchNested search (l1 ++ l2)
  = match searchNested search l1 with
    | Some r => Some r
    | None => searchNested search l2
    end.
Proof.
  induction l1 as [|g rest IH]; [reflexivity|].
  simpl. destruct (isLayerSet g); [|exact IH].
  destruct (search g) as [r|] eqn:E; simpl; [|exact IH].
  destruct (negb (r =? "")); [reflexivity|exact IH].
Qed.

(** Layer sets are not of Text kind, so the first Text layer of
    [artLayers] is the first Text-kind direct child. *)
Lemma find_isText_artLayers ls :
  find isText (artLayers ls) = find isText ls.
Proof.
  induction ls as [|l rest IH]; [reflexivity|].
  destruct l as [n v k c|n v ls']; simpl.
  - destruct (isText (ArtLayer n v k c)); [reflexivity|exact IH].
  - exact IH.
Qed.

Lemma getTextFromGroup_LayerSet n v ls :
  getTextFromGroup (LayerSet n v ls)
  = match find isText ls with
    | Some lyr => Some (contents lyr)
    | None => searchNested getTextFromGroup ls
    end.
Proof. simpl. now rewrite find_isText_artLayers. Qed.

Lemma subtree_allNodes l : subtree l = l :: allNodes (layers l).
Proof. destruct l; reflexivity. Qed.

Lemma allNodes_cons l ls :
  allNodes (l :: ls) = l :: allNodes (layers l) ++ allNodes ls.
Proof. unfold allNodes at 1. simpl. now rewrite subtree_allNodes. Qed.

Lemma find_none_of_existsb (f : Layer -> bool) ls :
  existsb f (allNodes ls) = false -> find f ls = None.
Proof.
  induction ls as [|l rest IH]; [reflexivity|].
  rewrite allNodes_cons. simpl. rewrite existsb_app.
  intros H. apply orb_false_iff in H. destruct H as [Hl H].
  apply orb_false_iff in H. destruct H as [_ H].
  rewrite Hl. now apply IH.
Qed.

(** Without a Text-kind descendant the search ends with [null]. *)
Lemma getTextFromGroup_no_text group :
  hasTextDescendant group = false -> getTextFromGroup group = None.
Proof.
  unfold hasTextDescendant. revert group.
  apply (Layer_tree_ind
    (fun l => existsb isText (allNodes (layers l)) = false ->
              getTextFromGroup l = None)
    (fun ls => existsb isText (allNodes ls) = false ->
               searchNested getTextFromGroup ls = None)).
  - reflexivity.
  - intros n v ls IH H. simpl in H. rewrite getTextFromGroup_LayerSet.
    rewrite (find_none_of_existsb isText ls H). now apply IH.
  - reflexivity.
  - intros l ls IHl IHls H. rewrite allNodes_cons in H. simpl in H.
    rewrite existsb_app in H.
    apply orb_false_iff in H. destruct H as [_ H].
    apply orb_false_iff in H. destruct H as [Hl Hls].
    simpl. rewrite (IHl Hl). simpl.
    destruct (isLayerSet l); now apply IHls.
Qed.

(** Where the specification's search finds nothing, so does the
    script's. *)
Lemma getTextFromGroup_firstTextNode_none group :
  firstTextNode group = None -> getTextFromGroup group = None.
Proof.
  revert group.
  apply (Layer_tree_ind
    (fun l => firstTextNode l = None -> getTextFromGroup l = None)
    (fun ls => firstTextNested ls = None ->
               searchNested getTextFromGroup ls = None)).
  - reflexivity.
  - intros n v ls IH H.
    rewrite firstTextNode_LayerSet in H. rewrite getTextFromGroup_LayerSet.
    destruct (find isText ls); [discriminate|]. now apply IH.
  - reflexivity.
  - intros l ls IHl IHls H. simpl in H. simpl.
    destruct (firstTextNode l); [discriminate|].
    rewrite (IHl eq_refl). simpl. destruct (isLayerSet l); now apply IHls.
Qed.

(** Where the specification's search finds a Text node with non-empty
    content, the script's search returns that content. *)
Lemma getTextFromGroup_firstTextNode group :
  forall text,
    firstTextNode group = Some text -> contents text <> "" ->
    getTextFromGroup group = Some (contents text).
Proof.
  revert group.
  apply (Layer_tree_ind
    (fun l => forall text,
         firstTextNode l = Some text -> contents text <> "" ->
         getTextFromGroup l = Some (contents text))
    (fun ls => forall text,
         firstTextNested ls = Some text -> contents text <> "" ->
         searchNested getTextFromGroup ls = Some (contents text))).
  - discriminate.
  - intros n v ls IH text H Hne.
    rewrite firstTextNode_LayerSet in H. rewrite getTextFromGroup_LayerSet.
    destruct (find isText ls) as [t|].
    + now injection H as ->.
    + now apply IH.
  - discriminate.
  - intros l ls IHl IHls text H Hne. simpl in H. simpl.
    destruct (firstTextNode l) as [t|] eqn:E.
    + injection H as ->. rewrite (IHl text eq_refl Hne).
      destruct l as [n v k c|n v ls']; [discriminate|]. simpl.
      apply String.eqb_neq in Hne. now rewrite Hne.
    + rewrite (getTextFromGroup_firstTextNode_none l E). simpl.
      destruct (isLayerSet l); now apply IHls.
Qed.

(** Renaming touches the top-level layer only: below it every address
    leads to the node that was there. *)
Lemma renameGroup_layers l : layers (renameGroup l) = layers l.
Proof.
  unfold renameGroup. destruct (getTextFromGroup l) as [text|]; [|reflexivity].
  destruct (truthy (Some text)); [|reflexivity]. destruct l; reflexivity.
Qed.

Lemma renameGroups_nth_error ls i :
  nth_error (renameGroups ls) i
  = option_map (fun l => if isLayerSet l then renameGroup l else l)
               (nth_error ls i).
Proof. unfold renameGroups. apply nth_error_map. Qed.

Lemma renameGroups_nodeAt_below ls i j rest :
  nodeAt (renameGroups ls) (i :: j :: rest) = nodeAt ls (i :: j :: rest).
Proof.
  simpl. rewrite renameGroups_nth_error.
  destruct (nth_error ls i) as [l|]; simpl; [|reflexivity].
  destruct (isLayerSet l); [|reflexivity]. now rewrite renameGroup_layers.
Qed.

Lemma renameGroup_no_text group :
  hasTextDescendant group = false -> renameGroup group = group.
Proof.
  intros H. unfold renameGroup. now rewrite getTextFromGroup_no_text.
Qed.

End Rename.

(** C4, as amended.  For each top-level container on its own: when the
    first Text-kind descendant found by the search of that container's
    subtree (direct children before nested containers) has non-empty
    content, the container's name is set to that content; nothing else of
    the container changes. *)
Theorem rename_sets_name_to_first_nonempty_text :
  forall layers i group text,
    nth_error layers i = Some group ->
    isLayerSet group = true ->
    firstTextNode group = Some text ->
    RenameGroups.contents text <> "" ->
    nth_error (RenameGroups.renameGroups layers) i
    = Some (setName (RenameGroups.contents text) group).
Proof.
  intros layers i group text Hi Hset Hfirst Hne.
  rewrite renameGroups_nth_error, Hi. simpl. rewrite Hset.
  unfold RenameGroups.renameGroup.
  rewrite (getTextFromGroup_firstTextNode group text Hfirst Hne). simpl.
  apply String.eqb_neq in Hne. now rewrite Hne.
Qed.

Lemma rename_sets_name_to_first_nonempty_text_witness :
  nth_error (RenameGroups.renameGroups actsLayers) 0
  = Some (LayerSet "Scene A" true
            [ ArtLayer "title" true TEXT "Scene A";
              LayerSet "Inner" true [] ]).
Proof.
  apply (rename_sets_name_to_first_nonempty_text actsLayers 0
           (LayerSet "Act 1" true
              [ ArtLayer "title" true TEXT "Scene A";
                LayerSet "Inner" true [] ])
           (ArtLayer "title" true TEXT "Scene A")).
  - reflexivity.
  - reflexivity.
  - reflexivity.
  - discriminate.
Defined.

(** C4 as stated fails: the first Text-kind descendant found in
    [emptyTitleGroup] is "title", whose content is the empty string, and
    the group keeps its name "Act 1" instead of taking that content. *)
Lemma rename_first_text_empty_counterexample :
  firstTextNode emptyTitleGroup = Some (ArtLayer "title" true TEXT "")
  /\ nth_error (RenameGroups.renameGroups [emptyTitleGroup]) 0
     <> Some (setName
               (RenameGroups.contents (ArtLayer "title" true TEXT ""))
               emptyTitleGroup)
  /\ nth_error (RenameGroups.renameGroups [emptyTitleGroup]) 0
     = Some emptyTitleGroup.
Proof.
  split; [reflexivity|]. split; [discriminate|reflexivity].
Qed.

(** The first example of the specification: "Act 1" becomes "Scene A",
    "Act 2" stays. *)
Example rename_acts_example :
  map name (RenameGroups.renameGroups actsLayers) = ["Scene A"; "Act 2"].
Proof. reflexivity. Qed.

(** C6.  Rename-groups leaves every container without a Text-kind
    descendant as it was, name included, at the top level and below; the
    run ends with its usual notice and no error. *)
Theorem rename_keeps_groups_without_text :
  forall before doc after path node,
    nodeAt (docLayers doc) path = Some node ->
    isLayerSet node = true ->
    hasTextDescendant node = false ->
    exists layers',
      RenameGroups.run (Open before doc after)
      = (Open before (mkDocument layers') after, [Alert "Done!"])
      /\ nodeAt layers' path = Some node
      /\ option_map name (nodeAt layers' path) = Some (name node).
Proof.
  intros before doc after path node Hnode Hset Hnone.
  exists (RenameGroups.renameGroups (docLayers doc)).
  split; [reflexivity|].
  assert (H : nodeAt (RenameGroups.renameGroups (docLayers doc)) path
              = Some node).
  { destruct path as [|i [|j rest]]; [discriminate| |].
    - simpl in *. rewrite renameGroups_nth_error.
      destruct (nth_error (docLayers doc) i) as [l|]; [|discriminate].
      injection Hnode as ->. simpl. rewrite Hset.
      now rewrite renameGroup_no_text.
    - now rewrite renameGroups_nodeAt_below. }
  split; [exact H|]. now rewrite H.
Qed.

Lemma rename_keeps_groups_without_text_witness :
  exists layers',
    RenameGroups.run (Open [] (mkDocument actsLayers) [])
    = (Open [] (mkDocument layers') [], [Alert "Done!"])
    /\ nodeAt layers' [1] = Some (LayerSet "Act 2" true [])
    /\ option_map name (nodeAt layers' [1]) = Some "Act 2".
Proof.
  apply (rename_keeps_groups_without_text
           [] (mkDocument actsLayers) [] [1] (LayerSet "Act 2" true [])).
  - reflexivity.
  - reflexivity.
  - reflexivity.
Defined.

(** C9.  An empty text is a false value in rename-groups.  When the first
    direct Text child of a container has empty content, the search of that
    container returns the empty string at once, whatever other text lies
    beside or below it, and the container keeps its name.  When a nested
    container hands back the empty string, the search passes over it and
    goes on with the nested containers after it, as if it were absent. *)
Theorem rename_treats_empty_text_as_false :
  (forall n v ls lyr,
      find isText (artLayers ls) = Some lyr ->
      RenameGroups.contents lyr = "" ->
      RenameGroups.getTextFromGroup (LayerSet n v ls) = Some ""
      /\ RenameGroups.renameGroups [LayerSet n v ls] = [LayerSet n v ls])
  /\ (forall n v l1 g l2,
         find isText (artLayers (l1 ++ g :: l2)) = None ->
         isLayerSet g = true ->
         RenameGroups.getTextFromGroup g = Some "" ->
         RenameGroups.getTextFromGroup (LayerSet n v (l1 ++ g :: l2))
         = RenameGroups.getTextFromGroup (LayerSet n v (l1 ++ l2))).
Proof.
  split.
  - intros n v ls lyr Hfind Hempty.
    assert (H : RenameGroups.getTextFromGroup (LayerSet n v ls) = Some "").
    { simpl. rewrite Hfind. now rewrite Hempty. }
    split; [exact H|].
    unfold RenameGroups.renameGroups. cbn [map isLayerSet].
    unfold RenameGroups.renameGroup. now rewrite H.
  - intros n v l1 g l2 Hfind Hset Hg.
    rewrite find_isText_artLayers in Hfind.
    rewrite !getTextFromGroup_LayerSet, Hfind.
    assert (Hfind' : find isText (l1 ++ l2) = None).
    { clear - Hfind. induction l1 as [|x l1 IH]; simpl in *.
      - destruct (isText g); [discriminate|exact Hfind].
      - destruct (isText x); [discriminate|now apply IH]. }
    rewrite Hfind', !searchNested_app. simpl.
    now rewrite Hset, Hg.
Qed.

Lemma rename_treats_empty_text_as_false_witness :
  (RenameGroups.getTextFromGroup emptyTitleGroup = Some ""
   /\ RenameGroups.renameGroups [emptyTitleGroup] = [emptyTitleGroup])
  /\ RenameGroups.getTextFromGroup emptyNestedGroup = Some "Scene C".
Proof.
  split.
  - apply (proj1 rename_treats_empty_text_as_false "Act 1" true
             [ ArtLayer "title" true TEXT "";
               ArtLayer "subtitle" true TEXT "Scene A";
               LayerSet "Inner" true [ ArtLayer "deep" true TEXT "Scene B" ] ]
             (ArtLayer "title" true TEXT "")).
    + reflexivity.
    + reflexivity.
  - exact (eq_trans
             (proj2 rename_treats_empty_text_as_false "Act 3" true
                [ ArtLayer "frame" true NORMAL "" ]
                (LayerSet "First" true [ ArtLayer "blank" true TEXT "" ])
                [ LayerSet "Second" true
                    [ ArtLayer "caption" true TEXT "Scene C" ] ]
                eq_refl eq_refl eq_refl)
             eq_refl).
Defined.

(** ** export-all-groups *)

Section ExportScript.
Import ExportAllGroups.

Lemma setVisible_visible l : setVisible (visible l) l = l.
Proof. destruct l; reflexivity. Qed.

Lemma setVisible_twice a b l : setVisible a (setVisible b l) = setVisible a l.
Proof. destruct l; reflexivity. Qed.

Lemma isLayerSet_setVisible b l : isLayerSet (setVisible b l) = isLayerSet l.
Proof. destruct l; reflexivity. Qed.

Lemma hideAll_from (originalStates : list bool) ls :
  forEach (fun layer originalStates =>
             (setVisible false layer, originalStates ++ [visible layer]))
          ls originalStates
  = (map (setVisible false) ls, originalStates ++ map visible ls).
Proof.
  revert originalStates.
  induction ls as [|l rest IH]; intros originalStates.
  - simpl. now rewrite app_nil_r.
  - rewrite forEach_cons. simpl. rewrite IH. simpl.
    now rewrite <- app_assoc.
Qed.

Lemma hideAll_eq ls : hideAll ls = (map (setVisible false) ls, map visible ls).
Proof. unfold hideAll. now rewrite hideAll_from. Qed.

(** After the first loop there is one remembered state per layer. *)
Lemma hideAll_length ls :
  List.length (snd (hideAll ls)) = List.length (fst (hideAll ls)).
Proof. rewrite hideAll_eq. simpl. now rewrite !length_map. Qed.

(** The second loop leaves every group hidden and art layers as they
    were. *)
Lemma exportGroups_layers exportFolder todo :
  forall done exportCount events,
    fst (fst (exportGroups exportFolder done todo exportCount events))
    = done ++ map (fun l => if isLayerSet l then setVisible false l else l)
                  todo.
Proof.
  induction todo as [|l rest IH]; intros done exportCount events.
  - simpl. now rewrite app_nil_r.
  - simpl. destruct (isLayerSet l); rewrite IH, <- app_assoc; simpl.
    + now rewrite setVisible_twice.
    + reflexivity.
Qed.

(** One file is written per top-level group, and that is the count. *)
Lemma exportGroups_count exportFolder todo :
  forall done exportCount events,
    snd (fst (exportGroups exportFolder done todo exportCount events))
    = exportCount + List.length (layerSets todo).
Proof.
  induction todo as [|l rest IH]; intros done exportCount events.
  - simpl. lia.
  - simpl. destruct (isLayerSet l); rewrite IH; simpl; lia.
Qed.

Lemma restoreFrom_hidden b ls :
  forall seen,
    restoreFrom (seen ++ map visible ls) (List.length seen)
                (map (setVisible b) ls)
    = ls.
Proof.
  induction ls as [|l rest IH]; intros seen; [reflexivity|].
  simpl. rewrite nth_middle, setVisible_twice, setVisible_visible.
  f_equal.
  specialize (IH (seen ++ [visible l])).
  rewrite <- app_assoc, length_app in IH. simpl in IH.
  now rewrite Nat.add_1_r in IH.
Qed.

(** Once a folder is chosen, [main] leaves the document as it found it. *)
Lemma main_document doc exportFolder :
  fst (main doc (Some exportFolder)) = doc.
Proof.
  unfold main. rewrite hideAll_eq.
  pose proof (exportGroups_layers exportFolder
                (map (setVisible false) (docLayers doc)) [] 0 []) as H.
  destruct (exportGroups exportFolder [] _ 0 []) as [[ls exportCount] events].
  simpl in H. subst ls. simpl.
  rewrite map_map.
  rewrite (map_ext _ (setVisible false)).
  - pose proof (restoreFrom_hidden false (docLayers doc) []) as R.
    simpl in R. rewrite R. now destruct doc.
  - intros l. rewrite isLayerSet_setVisible, setVisible_twice.
    now destruct (isLayerSet l).
Qed.

Lemma reservedClass_In c : reservedClass c = true <-> In c reservedChars.
Proof.
  unfold reservedClass, reservedChars. simpl map.
  rewrite !orb_true_iff, !Nat.eqb_eq. simpl In.
  assert (E : forall n, n < 256 ->
                        (nat_of_ascii c = n <-> ascii_of_nat n = c)).
  { intros n Hn. split; intros H.
    - rewrite <- H. apply ascii_nat_embedding.
    - rewrite <- H. now apply nat_ascii_embedding. }
  rewrite !E by lia. tauto.
Qed.

Lemma cleanFilename_length s :
  String.length (cleanFilename s) = String.length s.
Proof.
  unfold cleanFilename.
  induction s as [|c r IH]; [reflexivity|].
  simpl. destruct (reservedClass c); simpl; now rewrite IH.
Qed.

Lemma cleanFilename_get s :
  forall i,
    String.get i (cleanFilename s)
    = option_map (fun c => if reservedClass c then "_"%char else c)
                 (String.get i s).
Proof.
  unfold cleanFilename.
  induction s as [|c r IH]; intros i; [reflexivity|].
  simpl. destruct (reservedClass c) eqn:E, i; simpl; rewrite ?E; auto.
Qed.

End ExportScript.

(** C3.  Export-groups-as-image, run on an open document with a folder
    selected, leaves every top-level node, container or leaf layer, with the
    [visible] flag it had before the call, however many containers the
    document has and were exported; no top-level node is added or lost. *)
Theorem export_restores_top_level_visibility :
  forall before doc after exportFolder,
    exists doc' events,
      ExportAllGroups.run (Open before doc after) (Some exportFolder)
      = (Open before doc' after, events)
      /\ List.length (docLayers doc') = List.length (docLayers doc)
      /\ forall i,
           option_map visible (nth_error (docLayers doc') i)
           = option_map visible (nth_error (docLayers doc) i).
Proof.
  intros before doc after exportFolder.
  pose proof (main_document doc exportFolder) as H.
  unfold ExportAllGroups.run.
  destruct (ExportAllGroups.main doc (Some exportFolder)) as [doc' events].
  simpl in H. subst doc'.
  exists doc, events. split; [reflexivity|]. split; reflexivity.
Qed.

(** C7.  Clean-filename keeps the length of a name, replaces each
    occurrence of a reserved character by an underscore and keeps every
    other character; a name without reserved characters is unchanged. *)
Theorem cleanFilename_replaces_reserved_characters :
  forall name,
    String.length (ExportAllGroups.cleanFilename name) = String.length name
    /\ (forall i c,
           String.get i name = Some c ->
           (In c reservedChars ->
            String.get i (ExportAllGroups.cleanFilename name)
            = Some "_"%char)
           /\ (~ In c reservedChars ->
               String.get i (ExportAllGroups.cleanFilename name) = Some c))
    /\ ((forall i c, String.get i name = Some c -> ~ In c reservedChars) ->
        ExportAllGroups.cleanFilename name = name).
Proof.
  intros name. split; [apply cleanFilename_length|]. split.
  - intros i c Hget. rewrite cleanFilename_get, Hget. simpl.
    destruct (ExportAllGroups.reservedClass c) eqn:E.
    + split; [reflexivity|]. intros Hn. exfalso. apply Hn.
      now apply reservedClass_In.
    + split; [|reflexivity]. intros Hin. apply reservedClass_In in Hin.
      congruence.
  - intros Hnone. apply String.get_correct. intros i.
    rewrite cleanFilename_get.
    destruct (String.get i name) as [c|] eqn:Hget; [|reflexivity].
    simpl. destruct (ExportAllGroups.reservedClass c) eqn:E; [|reflexivity].
    exfalso. apply (Hnone i c Hget). now apply reservedClass_In.
Qed.

Lemma cleanFilename_replaces_reserved_characters_witness :
  String.get 3 (ExportAllGroups.cleanFilename "Act/1") = Some "_"%char
  /\ String.get 0 (ExportAllGroups.cleanFilename "Act/1") = Some "A"%char
  /\ ExportAllGroups.cleanFilename "Act 1" = "Act 1".
Proof.
  split; [|split].
  - apply (proj1 (proj2 (cleanFilename_replaces_reserved_characters "Act/1")))
      with (c := "/"%char).
    + reflexivity.
    + simpl. auto.
  - apply (proj1 (proj2 (cleanFilename_replaces_reserved_characters "Act/1")))
      with (c := "A"%char).
    + reflexivity.
    + simpl. intuition discriminate.
  - apply (proj2 (proj2 (cleanFilename_replaces_reserved_characters "Act 1"))).
    intros i c Hget.
    do 5 (destruct i as [|i];
          [injection Hget as <-; simpl; intuition discriminate|]).
    discriminate.
Defined.

(** ** No document open *)

(** C5 as stated fails for hide-all-text: with no document open it raises
    no notice at all. *)
Lemma hide_all_text_no_document_counterexample :
  runOperation HideAllText NoDocuments = (NoDocuments, [])
  /\ ~ exists notice,
         In (Alert notice) (snd (runOperation HideAllText NoDocuments)).
Proof.
  split; [reflexivity|]. intros [notice []].
Qed.

(** C5, as amended.  With no document open every operation stops at once
    and leaves the application as it is, writing no file: toggle-by-prefix,
    rename-groups-from-text and export-groups-as-image raise exactly one
    blocking notice, whatever the user would have answered; hide-all-text
    stops silently. *)
Theorem no_document_aborts_without_mutation :
  forall op,
    fst (runOperation op NoDocuments) = NoDocuments
    /\ snd (runOperation op NoDocuments)
       = match op with
         | ToggleByPrefix _ _ => [Alert "Please open a document first."]
         | RenameGroupsFromText => [Alert "No document open!"]
         | HideAllText => []
         | ExportGroupsAsImage _ => [Alert "Please open a document first."]
         end.
Proof. intros [prefixAnswer actionAnswer| | |exportFolder]; split; reflexivity. Qed.

(** * Further properties of the scripts *)

(** ** All nodes of a transformed tree *)

Lemma allNodes_map (g : Layer -> Layer) :
  (forall l, layers (g l) = map g (layers l)) ->
  forall ls, allNodes (map g ls) = map g (allNodes ls).
Proof.
  intros Hg.
  apply (Layers_tree_ind
    (fun l => subtree (g l) = map g (subtree l))
    (fun ls => allNodes (map g ls) = map g (allNodes ls))).
  - intros n v k c. rewrite (subtree_allNodes (g _)), Hg. reflexivity.
  - intros n v ls IH. rewrite (subtree_allNodes (g _)), Hg. simpl layers.
    rewrite IH. reflexivity.
  - reflexivity.
  - intros l ls IHl IHls. unfold allNodes in *. simpl.
    now rewrite map_app, IHl, IHls.
Qed.

Lemma In_allNodes_top l ls : In l ls -> In l (allNodes ls).
Proof.
  intros H. unfold allNodes. apply in_flat_map. exists l.
  split; [exact H|]. destruct l; simpl; auto.
Qed.

Lemma In_allNodes_below g ls t :
  In g ls -> In t (allNodes (layers g)) -> In t (allNodes ls).
Proof.
  intros Hg Ht. unfold allNodes at 1. apply in_flat_map. exists g.
  split; [exact Hg|]. rewrite subtree_allNodes. now right.
Qed.

Lemma filter_length_map {A : Type} (f : A -> bool) (g : A -> A) l :
  (forall a, f (g a) = f a) ->
  List.length (filter f (map g l)) = List.length (filter f l).
Proof.
  intros H. induction l as [|a l IH]; [reflexivity|].
  simpl. rewrite H. destruct (f a); simpl; now rewrite IH.
Qed.

Lemma countMatching_map prefix (g : Layer -> Layer) ls :
  (forall l, layers (g l) = map g (layers l)) ->
  (forall l, name (g l) = name l) ->
  countMatching prefix (map g ls) = countMatching prefix ls.
Proof.
  intros Hg Hn. unfold countMatching. rewrite allNodes_map by exact Hg.
  apply filter_length_map. intros a. now rewrite Hn.
Qed.

(** ** toggle-vis-by-prefix: validation, direction, composition *)

(** X1.  The toggle script validates its answers in order and changes
    nothing unless both pass: a dismissed or empty prefix ends with the
    no-prefix notice whatever the action; with a prefix, a dismissed or
    empty action ends with the no-action notice; with both, an action that
    is not "show" or "hide" in any letter case ends with the
    invalid-action notice.  The application is left as it was each time. *)
Theorem toggle_rejects_invalid_answers :
  forall app prefixAnswer actionAnswer,
    app <> NoDocuments ->
    (truthy prefixAnswer = false ->
     ToggleVisByPrefix.toggleLayersByPrefix app prefixAnswer actionAnswer
     = (app, [Alert "No prefix entered. Operation cancelled."]))
    /\ (truthy prefixAnswer = true -> truthy actionAnswer = false ->
        ToggleVisByPrefix.toggleLayersByPrefix app prefixAnswer actionAnswer
        = (app, [Alert "No action specified. Operation cancelled."]))
    /\ (forall action,
           truthy prefixAnswer = true -> actionAnswer = Some action ->
           action <> "" ->
           toLowerCase action <> "show" -> toLowerCase action <> "hide" ->
           ToggleVisByPrefix.toggleLayersByPrefix
             app prefixAnswer actionAnswer
           = (app,
              [Alert "Invalid action. Please enter 'show' or 'hide'."])).
Proof.
  intros [|before doc after] prefixAnswer actionAnswer Hopen;
    [congruence|clear Hopen].
  unfold ToggleVisByPrefix.toggleLayersByPrefix.
  split; [|split].
  - intros Hp. destruct prefixAnswer as [prefix|]; [|reflexivity].
    now rewrite Hp.
  - intros Hp Ha. destruct prefixAnswer as [prefix|]; [|discriminate].
    rewrite Hp. change (negb true) with false. cbv iota.
    destruct actionAnswer as [action|]; [|reflexivity]. now rewrite Ha.
  - intros action Hp -> Hne Hshow Hhide.
    destruct prefixAnswer as [prefix|]; [|discriminate].
    rewrite Hp. change (negb true) with false. cbv iota.
    apply String.eqb_neq in Hne, Hshow, Hhide.
    cbn [truthy]. rewrite Hne. change (negb (negb false)) with false.
    cbv iota zeta. now rewrite Hshow, Hhide.
Qed.

Lemma toggle_rejects_invalid_answers_witness :
  ToggleVisByPrefix.toggleLayersByPrefix
    (Open [] (mkDocument sampleLayers) []) (Some "") (Some "show")
  = (Open [] (mkDocument sampleLayers) [],
     [Alert "No prefix entered. Operation cancelled."])
  /\ ToggleVisByPrefix.toggleLayersByPrefix
       (Open [] (mkDocument sampleLayers) []) (Some "BG_") None
     = (Open [] (mkDocument sampleLayers) [],
        [Alert "No action specified. Operation cancelled."])
  /\ ToggleVisByPrefix.toggleLayersByPrefix
       (Open [] (mkDocument sampleLayers) []) (Some "BG_") (Some "Toggle")
     = (Open [] (mkDocument sampleLayers) [],
        [Alert "Invalid action. Please enter 'show' or 'hide'."]).
Proof.
  split; [|split].
  - apply (proj1 (toggle_rejects_invalid_answers
                    (Open [] (mkDocument sampleLayers) [])
                    (Some "") (Some "show") ltac:(discriminate))).
    reflexivity.
  - apply (proj1 (proj2 (toggle_rejects_invalid_answers
                           (Open [] (mkDocument sampleLayers) [])
                           (Some "BG_") None ltac:(discriminate))));
      reflexivity.
  - apply (proj2 (proj2 (toggle_rejects_invalid_answers
                           (Open [] (mkDocument sampleLayers) [])
                           (Some "BG_") (Some "Toggle")
                           ltac:(discriminate))) "Toggle");
      try reflexivity; discriminate.
Defined.

(** X2.  Toggle-by-prefix with action hide, in any letter case: every
    node at any depth whose name starts with the prefix ends with
    [visible = false], every other node keeps its flag, and no node
    appears, disappears or changes its name. *)
Theorem toggle_hide_clears_matching_keeps_others :
  forall before doc after prefix action,
    prefix <> "" ->
    toLowerCase action = "hide" ->
    exists layers' notice,
      ToggleVisByPrefix.toggleLayersByPrefix
        (Open before doc after) (Some prefix) (Some action)
      = (Open before (mkDocument layers') after, [Alert notice])
      /\ forall path,
          match nodeAt (docLayers doc) path, nodeAt layers' path with
          | Some node, Some node' =>
              name node' = name node
              /\ visible node'
                 = (if startsWith prefix (name node) then false
                    else visible node)
          | None, None => True
          | _, _ => False
          end.
Proof.
  intros before doc after prefix action Hp Ha.
  rewrite toggleLayersByPrefix_runs by auto.
  rewrite Ha. cbv zeta. simpl String.eqb.
  eexists. eexists. split; [reflexivity|].
  intros path. rewrite processLayers_nodeAt.
  destruct (nodeAt (docLayers doc) path) as [node|]; simpl; [|exact I].
  split; [apply toggleNode_name | apply toggleNode_visible].
Qed.

Lemma toggle_hide_clears_matching_keeps_others_witness :
  exists layers' notice,
    ToggleVisByPrefix.toggleLayersByPrefix
      (Open [] (mkDocument actsLayers) []) (Some "Act") (Some "Hide")
    = (Open [] (mkDocument layers') [], [Alert notice])
    /\ forall path,
        match nodeAt actsLayers path, nodeAt layers' path with
        | Some node, Some node' =>
            name node' = name node
            /\ visible node'
               = (if startsWith "Act" (name node) then false
                  else visible node)
        | None, None => True
        | _, _ => False
        end.
Proof.
  apply (toggle_hide_clears_matching_keeps_others
           [] (mkDocument actsLayers) [] "Act" "Hide").
  - discriminate.
  - reflexivity.
Defined.

Section ToggleAlgebra.
Import ToggleVisByPrefix.

Lemma toggleNode_twice prefix a b l :
  toggleNode prefix b (toggleNode prefix a l) = toggleNode prefix b l.
Proof.
  revert l.
  apply (Layer_tree_ind
    (fun l => toggleNode prefix b (toggleNode prefix a l)
              = toggleNode prefix b l)
    (fun ls => map (toggleNode prefix b) (map (toggleNode prefix a) ls)
               = map (toggleNode prefix b) ls)).
  - intros n v k c. simpl. now destruct (startsWith prefix n).
  - intros n v ls IH. simpl. rewrite IH. now destruct (startsWith prefix n).
  - reflexivity.
  - intros l ls IHl IHls. simpl. now rewrite IHl, IHls.
Qed.

Lemma withoutVisibility_toggleNode prefix shouldShow l :
  withoutVisibility (toggleNode prefix shouldShow l) = withoutVisibility l.
Proof.
  revert l.
  apply (Layer_tree_ind
    (fun l => withoutVisibility (toggleNode prefix shouldShow l)
              = withoutVisibility l)
    (fun ls => map withoutVisibility (map (toggleNode prefix shouldShow) ls)
               = map withoutVisibility ls)).
  - reflexivity.
  - intros n v ls IH. simpl. now rewrite IH.
  - reflexivity.
  - intros l ls IHl IHls. simpl. now rewrite IHl, IHls.
Qed.

Lemma withoutVisibility_hideTextLayer l :
  withoutVisibility (HideAllTextLayers.hideTextLayer l) = withoutVisibility l.
Proof.
  revert l.
  apply (Layer_tree_ind
    (fun l => withoutVisibility (HideAllTextLayers.hideTextLayer l)
              = withoutVisibility l)
    (fun ls => map withoutVisibility
                 (map HideAllTextLayers.hideTextLayer ls)
               = map withoutVisibility ls)).
  - intros n v k c. simpl. now destruct (LayerKind_eqb k TEXT).
  - intros n v ls IH. simpl. now rewrite IH.
  - reflexivity.
  - intros l ls IHl IHls. simpl. now rewrite IHl, IHls.
Qed.

Lemma hideTextLayer_toggleNode_hide prefix l :
  HideAllTextLayers.hideTextLayer (toggleNode prefix false l)
  = toggleNode prefix false (HideAllTextLayers.hideTextLayer l).
Proof.
  revert l.
  apply (Layer_tree_ind
    (fun l => HideAllTextLayers.hideTextLayer (toggleNode prefix false l)
              = toggleNode prefix false (HideAllTextLayers.hideTextLayer l))
    (fun ls => map HideAllTextLayers.hideTextLayer
                 (map (toggleNode prefix false) ls)
               = map (toggleNode prefix false)
                   (map HideAllTextLayers.hideTextLayer ls))).
  - intros n v k c. simpl.
    destruct (LayerKind_eqb k TEXT); simpl;
      destruct (startsWith prefix n); reflexivity.
  - intros n v ls IH. simpl. now rewrite IH.
  - reflexivity.
  - intros l ls IHl IHls. simpl. now rewrite IHl, IHls.
Qed.

End ToggleAlgebra.

(** X3.  Two walks of [processLayers] with the same prefix compose to
    the later one: the layers left by toggling to [first] and then to
    [second] are those left by toggling to [second] alone.  So a walk is
    idempotent, and hiding undoes a show on exactly the matching nodes;
    the count of the second walk is that of a single walk. *)
Theorem toggle_same_prefix_last_walk_wins :
  forall layers prefix first second m1 m2,
    let once := ToggleVisByPrefix.processLayers layers prefix first m1 in
    ToggleVisByPrefix.processLayers (fst once) prefix second m2
    = ToggleVisByPrefix.processLayers layers prefix second m2.
Proof.
  intros layers prefix a b m1 m2 once.
  apply injective_projections.
  - unfold once. rewrite !processLayers_fst. clear once.
    induction layers as [|l ls IH]; [reflexivity|].
    simpl. now rewrite toggleNode_twice, IH.
  - unfold once. rewrite !processLayers_snd, processLayers_fst.
    f_equal. apply countMatching_map.
    + apply toggleNode_layers.
    + apply toggleNode_name.
Qed.

(** X4.  [processLayers] changes [visible] flags and nothing else: with
    visibility disregarded, the layers it leaves are the layers it was
    given (names, kinds, text contents, nesting and order). *)
Theorem toggle_changes_only_visibility :
  forall layers prefix shouldShow matchCount,
    map withoutVisibility
      (fst (ToggleVisByPrefix.processLayers
              layers prefix shouldShow matchCount))
    = map withoutVisibility layers.
Proof.
  intros layers prefix shouldShow matchCount.
  rewrite processLayers_fst, map_map.
  apply map_ext. intros l. apply withoutVisibility_toggleNode.
Qed.

(** X5.  The count of [processLayers] depends on names alone: it is the
    same for show and for hide, it is unchanged by an earlier toggle with
    any prefix and direction and by an earlier hide-all-text, and the
    running count passed in is only added to. *)
Theorem toggle_count_depends_on_names_only :
  forall layers prefix shouldShow,
    let count := snd (ToggleVisByPrefix.processLayers
                        layers prefix shouldShow 0) in
    (forall other matchCount,
        snd (ToggleVisByPrefix.processLayers layers prefix other matchCount)
        = matchCount + count)
    /\ (forall prefix' shouldShow' matchCount',
           snd (ToggleVisByPrefix.processLayers
                  (fst (ToggleVisByPrefix.processLayers
                          layers prefix' shouldShow' matchCount'))
                  prefix shouldShow 0)
           = count)
    /\ snd (ToggleVisByPrefix.processLayers
              (HideAllTextLayers.hideTextLayers layers) prefix shouldShow 0)
       = count.
Proof.
  intros layers prefix shouldShow count. unfold count.
  rewrite processLayers_snd. simpl. split; [|split].
  - intros other matchCount. now rewrite processLayers_snd.
  - intros prefix' shouldShow' matchCount'.
    rewrite processLayers_snd, processLayers_fst. simpl.
    apply countMatching_map; [apply toggleNode_layers|apply toggleNode_name].
  - rewrite processLayers_snd. simpl.
    apply countMatching_map;
      [apply hideTextLayer_layers|apply hideTextLayer_name].
Qed.

(** ** hide-all-text-layers: frame, fixed points, composition *)

Lemma hideTextLayer_kind l :
  kind (HideAllTextLayers.hideTextLayer l) = kind l.
Proof.
  destruct l as [n v k c|n v ls]; simpl; [|reflexivity].
  destruct (LayerKind_eqb k TEXT); reflexivity.
Qed.

Lemma hideTextLayers_fixed_iff ls :
  HideAllTextLayers.hideTextLayers ls = ls
  <-> forall node, In node (allNodes ls) ->
                   isText node = true -> visible node = false.
Proof.
  unfold HideAllTextLayers.hideTextLayers. revert ls.
  apply (Layers_tree_ind
    (fun l => HideAllTextLayers.hideTextLayer l = l
              <-> forall node, In node (subtree l) ->
                               isText node = true -> visible node = false)
    (fun ls => map HideAllTextLayers.hideTextLayer ls = ls
               <-> forall node, In node (allNodes ls) ->
                                isText node = true -> visible node = false)).
  - intros n v k c. unfold isText. simpl. split.
    + intros H node [<-|[]] Ht. simpl in *. rewrite Ht in H.
      now injection H as <-.
    + intros H. destruct (LayerKind_eqb k TEXT) eqn:E; [|reflexivity].
      specialize (H (ArtLayer n v k c) (or_introl eq_refl)). simpl in H.
      now rewrite (H E).
  - intros n v ls IH. simpl. split.
    + intros H node [<-|Hin] Ht; [discriminate|].
      injection H as H. apply IH; assumption.
    + intros H. f_equal. apply IH. intros node Hin. apply H. now right.
  - split; [intros _ node []|reflexivity].
  - intros l ls IHl IHls. unfold allNodes. simpl. split.
    + intros H node Hin. injection H as Hl Hls.
      apply in_app_or in Hin. destruct Hin as [Hin|Hin].
      * now apply IHl.
      * now apply IHls.
    + intros H. f_equal.
      * apply IHl. intros node Hin. apply H. apply in_or_app. now left.
      * apply IHls. intros node Hin. apply H. apply in_or_app. now right.
Qed.

(** X6.  Hide-all-text changes the [visible] flag of Text layers and
    nothing else: at every address the node keeps its name and kind; a
    Text layer ends hidden and any other node, layer sets included, keeps
    its flag; and with visibility disregarded the tree is the one
    given. *)
Theorem hide_all_text_touches_only_text_visibility :
  forall layers,
    (forall path,
        match nodeAt layers path,
              nodeAt (HideAllTextLayers.hideTextLayers layers) path with
        | Some node, Some node' =>
            name node' = name node /\ kind node' = kind node
            /\ visible node' = (if isText node then false else visible node)
        | None, None => True
        | _, _ => False
        end)
    /\ map withoutVisibility (HideAllTextLayers.hideTextLayers layers)
       = map withoutVisibility layers.
Proof.
  intros layers. split.
  - intros path. rewrite hideTextLayers_nodeAt.
    destruct (nodeAt layers path) as [node|]; simpl; [|exact I].
    split; [apply hideTextLayer_name|].
    split; [apply hideTextLayer_kind|apply hideTextLayer_visible].
  - unfold HideAllTextLayers.hideTextLayers. rewrite map_map.
    apply map_ext. intros l. apply withoutVisibility_hideTextLayer.
Qed.

(** X7.  The layer trees that hide-all-text leaves unchanged are exactly
    those in which no Text layer, at any depth, is visible; and the tree
    it leaves is always one of them. *)
Theorem hide_all_text_fixed_points :
  forall layers,
    (HideAllTextLayers.hideTextLayers layers = layers
     <-> forall node, In node (allNodes layers) ->
                      isText node = true -> visible node = false)
    /\ (forall node,
           In node (allNodes (HideAllTextLayers.hideTextLayers layers)) ->
           isText node = true -> visible node = false).
Proof.
  intros layers. split; [apply hideTextLayers_fixed_iff|].
  apply hideTextLayers_fixed_iff. apply hideTextLayers_twice.
Qed.

(** X8.  Hide-all-text and a hiding toggle commute: whichever of the two
    walks runs first, the layers left are the same. *)
Theorem hide_all_text_commutes_with_toggle_hide :
  forall layers prefix m1 m2,
    HideAllTextLayers.hideTextLayers
      (fst (ToggleVisByPrefix.processLayers layers prefix false m1))
    = fst (ToggleVisByPrefix.processLayers
             (HideAllTextLayers.hideTextLayers layers) prefix false m2).
Proof.
  intros layers prefix m1 m2. rewrite !processLayers_fst.
  unfold HideAllTextLayers.hideTextLayers.
  induction layers as [|l ls IH]; [reflexivity|].
  simpl. now rewrite hideTextLayer_toggleNode_hide, IH.
Qed.

Lemma hide_all_text_fixed_points_witness :
  visible (ArtLayer "BG_Far" false TEXT "far") = false.
Proof.
  apply (proj2 (hide_all_text_fixed_points sampleLayers)
           (ArtLayer "BG_Far" false TEXT "far")).
  - simpl. auto.
  - reflexivity.
Defined.

(** ** rename-groups: what a search returns, frame, composition *)

Section RenameMore.
Import RenameGroups.

Lemma searchNested_truthy search ls s :
  searchNested search ls = Some s -> s <> "".
Proof.
  induction ls as [|g rest IH]; [discriminate|].
  simpl. destruct (isLayerSet g); [|exact IH].
  destruct (search g) as [r|] eqn:E; simpl; [|exact IH].
  destruct (r =? "") eqn:Er; simpl; [exact IH|].
  intros H. injection H as <-. now apply String.eqb_neq.
Qed.

Lemma find_isText_In ls lyr :
  find isText ls = Some lyr -> In lyr ls /\ isText lyr = true.
Proof. apply find_some. Qed.

Lemma getTextFromGroup_from_descendant group :
  forall s,
    getTextFromGroup group = Some s ->
    exists text,
      In text (allNodes (layers group)) /\ isText text = true
      /\ contents text = s.
Proof.
  revert group.
  apply (Layer_tree_ind
    (fun l => forall s,
         getTextFromGroup l = Some s ->
         exists text, In text (allNodes (layers l)) /\ isText text = true
                      /\ contents text = s)
    (fun ls => forall s,
         searchNested getTextFromGroup ls = Some s ->
         exists text, In text (allNodes ls) /\ isText text = true
                      /\ contents text = s)).
  - discriminate.
  - intros n v ls IH s H. rewrite getTextFromGroup_LayerSet in H.
    simpl layers. destruct (find isText ls) as [lyr|] eqn:E.
    + injection H as <-. apply find_isText_In in E. destruct E as [Hin Ht].
      exists lyr. split; [now apply In_allNodes_top|]. now split.
    + now apply IH.
  - discriminate.
  - intros l ls IHl IHls s H. simpl in H.
    assert (Hrest : searchNested getTextFromGroup ls = Some s ->
                    exists text, In text (allNodes (l :: ls))
                                 /\ isText text = true /\ contents text = s).
    { intros Hs. destruct (IHls s Hs) as [text [Hin Ht]].
      exists text. split; [|exact Ht].
      rewrite allNodes_cons. right. apply in_or_app. now right. }
    destruct (isLayerSet l); [|now apply Hrest].
    destruct (getTextFromGroup l) as [r|] eqn:E; simpl in H;
      [|now apply Hrest].
    destruct (r =? ""); simpl in H; [now apply Hrest|].
    injection H as <-. destruct (IHl r eq_refl) as [text [Hin Ht]].
    exists text. split; [|exact Ht].
    rewrite allNodes_cons. right. apply in_or_app. now left.
Qed.

Lemma getTextFromGroup_setName s group :
  getTextFromGroup (setName s group) = getTextFromGroup group.
Proof. destruct group; reflexivity. Qed.

Lemma renameGroup_twice group :
  renameGroup (renameGroup group) = renameGroup group.
Proof.
  unfold renameGroup at 2 3.
  destruct (getTextFromGroup group) as [text|] eqn:E.
  - destruct (truthy (Some text)) eqn:Et.
    + unfold renameGroup. rewrite getTextFromGroup_setName, E, Et.
      destruct group; reflexivity.
    + unfold renameGroup. now rewrite E, Et.
  - unfold renameGroup. now rewrite E.
Qed.

Lemma isLayerSet_renameGroup group :
  isLayerSet (renameGroup group) = isLayerSet group.
Proof.
  unfold renameGroup. destruct (getTextFromGroup group) as [text|];
    [|reflexivity].
  destruct (truthy (Some text)); [|reflexivity]. destruct group; reflexivity.
Qed.

Lemma renameGroup_visible group :
  visible (renameGroup group) = visible group.
Proof.
  unfold renameGroup. destruct (getTextFromGroup group) as [text|];
    [|reflexivity].
  destruct (truthy (Some text)); [|reflexivity]. destruct group; reflexivity.
Qed.

End RenameMore.

(** X9.  Whatever [getTextFromGroup] returns for a group is the content
    of a Text-kind layer somewhere inside that group; and it returns the
    empty string only when the first Text layer among the group's direct
    children holds it, never from a nested group. *)
Theorem getTextFromGroup_returns_text_of_a_descendant :
  forall n v ls s,
    RenameGroups.getTextFromGroup (LayerSet n v ls) = Some s ->
    (exists text,
        In text (allNodes ls) /\ isText text = true
        /\ RenameGroups.contents text = s)
    /\ (s = "" ->
        exists lyr,
          find isText (artLayers ls) = Some lyr
          /\ RenameGroups.contents lyr = "").
Proof.
  intros n v ls s H. split.
  - exact (getTextFromGroup_from_descendant (LayerSet n v ls) s H).
  - intros ->. simpl in H.
    destruct (find isText (artLayers ls)) as [lyr|].
    + exists lyr. split; [reflexivity|]. now injection H.
    + now apply searchNested_truthy in H.
Qed.

Lemma getTextFromGroup_returns_text_of_a_descendant_witness :
  (exists text,
      In text (allNodes (layers emptyNestedGroup)) /\ isText text = true
      /\ RenameGroups.contents text = "Scene C")
  /\ ("Scene C" = "" ->
      exists lyr,
        find isText (artLayers (layers emptyNestedGroup)) = Some lyr
        /\ RenameGroups.contents lyr = "").
Proof.
  apply (getTextFromGroup_returns_text_of_a_descendant
           "Act 3" true (layers emptyNestedGroup) "Scene C").
  reflexivity.
Defined.

(** X10.  Rename-groups assigns names of top-level layer sets only.  The
    number and order of top-level layers are kept; a top-level art layer is
    left as it is; a top-level layer set keeps its visibility and its
    children; every node below the top level is left as it is.  A name
    that changes becomes a non-empty text held by a Text layer inside that
    group, so no group is ever renamed to the empty string. *)
Theorem rename_assigns_only_top_level_group_names :
  forall top,
    List.length (RenameGroups.renameGroups top) = List.length top
    /\ (forall i l,
           nth_error top i = Some l ->
           exists l',
             nth_error (RenameGroups.renameGroups top) i = Some l'
             /\ isLayerSet l' = isLayerSet l
             /\ visible l' = visible l
             /\ layers l' = layers l
             /\ (isLayerSet l = false -> l' = l)
             /\ (name l' = name l
                 \/ (name l' <> ""
                     /\ exists text,
                          In text (allNodes (layers l))
                          /\ isText text = true
                          /\ RenameGroups.contents text = name l')))
    /\ (forall i j rest,
           nodeAt (RenameGroups.renameGroups top) (i :: j :: rest)
           = nodeAt top (i :: j :: rest)).
Proof.
  intros top. split; [|split].
  - unfold RenameGroups.renameGroups. apply length_map.
  - intros i l Hi. rewrite renameGroups_nth_error, Hi. simpl.
    eexists. split; [reflexivity|].
    destruct (isLayerSet l) eqn:Hset.
    + split; [now rewrite isLayerSet_renameGroup|].
      split; [apply renameGroup_visible|].
      split; [apply renameGroup_layers|].
      split; [discriminate|].
      unfold RenameGroups.renameGroup.
      destruct (RenameGroups.getTextFromGroup l) as [text|] eqn:E;
        [|now left].
      simpl. destruct (text =? "") eqn:Et; simpl; [now left|].
      right. apply String.eqb_neq in Et.
      assert (Hn : name (setName text l) = text) by (destruct l; reflexivity).
      rewrite Hn. split; [exact Et|].
      exact (getTextFromGroup_from_descendant l text E).
    + split; [exact Hset|]. split; [reflexivity|]. split; [reflexivity|].
      split; [reflexivity|]. now left.
  - intros i j rest. apply renameGroups_nodeAt_below.
Qed.

Lemma rename_assigns_only_top_level_group_names_witness :
  exists l',
    nth_error (RenameGroups.renameGroups actsLayers) 0 = Some l'
    /\ isLayerSet l' = true
    /\ visible l' = true
    /\ layers l'
       = [ ArtLayer "title" true TEXT "Scene A"; LayerSet "Inner" true [] ]
    /\ (true = false
        -> l' = LayerSet "Act 1" true
                  [ ArtLayer "title" true TEXT "Scene A";
                    LayerSet "Inner" true [] ])
    /\ (name l' = "Act 1"
        \/ (name l' <> ""
            /\ exists text,
                 In text (allNodes
                            [ ArtLayer "title" true TEXT "Scene A";
                              LayerSet "Inner" true [] ])
                 /\ isText text = true
                 /\ RenameGroups.contents text = name l')).
Proof.
  apply (proj1 (proj2 (rename_assigns_only_top_level_group_names actsLayers))
           0 (LayerSet "Act 1" true
                [ ArtLayer "title" true TEXT "Scene A";
                  LayerSet "Inner" true [] ])).
  reflexivity.
Defined.

(** X11.  Rename-groups is idempotent: the search reads only what lies
    inside a group, which a rename does not change, so a second run finds
    the same texts and leaves every name as the first run set it. *)
Theorem rename_groups_idempotent :
  forall top,
    RenameGroups.renameGroups (RenameGroups.renameGroups top)
    = RenameGroups.renameGroups top.
Proof.
  intros top. unfold RenameGroups.renameGroups. rewrite map_map.
  apply map_ext. intros l.
  destruct (isLayerSet l) eqn:Hset.
  - now rewrite isLayerSet_renameGroup, Hset, renameGroup_twice.
  - now rewrite Hset.
Qed.

(** ** export-all-groups: files, notice, what each file shows *)

Section ExportMore.
Import ExportAllGroups.

Lemma name_setVisible b l : name (setVisible b l) = name l.
Proof. destruct l; reflexivity. Qed.

Lemma exportFileName_setVisible exportFolder b l :
  exportFileName exportFolder (setVisible b l) = exportFileName exportFolder l.
Proof. unfold exportFileName. now rewrite name_setVisible. Qed.

Lemma savedFiles_app e1 e2 :
  savedFiles (e1 ++ e2) = savedFiles e1 ++ savedFiles e2.
Proof. apply flat_map_app. Qed.

Lemma notices_app e1 e2 : notices (e1 ++ e2) = notices e1 ++ notices e2.
Proof. apply flat_map_app. Qed.

Lemma layerSets_hidden ls :
  layerSets (map (setVisible false) ls) = map (setVisible false) (layerSets ls).
Proof.
  induction ls as [|l rest IH]; [reflexivity|].
  simpl. rewrite isLayerSet_setVisible.
  destruct (isLayerSet l); simpl; now rewrite IH.
Qed.

Lemma exportGroups_savedFiles exportFolder todo :
  forall done exportCount events,
    savedFiles (snd (exportGroups exportFolder done todo exportCount events))
    = savedFiles events ++ map (exportFileName exportFolder) (layerSets todo).
Proof.
  induction todo as [|l rest IH]; intros done exportCount events.
  - simpl. now rewrite app_nil_r.
  - simpl. destruct (isLayerSet l); rewrite IH; [|reflexivity].
    rewrite savedFiles_app, <- app_assoc. simpl.
    now rewrite name_setVisible.
Qed.

Lemma exportGroups_notices exportFolder todo :
  forall done exportCount events,
    notices (snd (exportGroups exportFolder done todo exportCount events))
    = notices events.
Proof.
  induction todo as [|l rest IH]; intros done exportCount events;
    [reflexivity|].
  simpl. destruct (isLayerSet l); rewrite IH; [|reflexivity].
  rewrite notices_app. simpl. now rewrite app_nil_r.
Qed.

(** The files written by the second loop, with what each one shows. *)
Lemma exportGroups_In_SaveAs exportFolder file shown todo :
  forall done exportCount events,
    In (SaveAs file shown)
       (snd (exportGroups exportFolder done todo exportCount events))
    <-> In (SaveAs file shown) events
        \/ exists pre g post,
             todo = pre ++ g :: post /\ isLayerSet g = true
             /\ file = exportFileName exportFolder g
             /\ shown
                = done
                  ++ map (fun l => if isLayerSet l then setVisible false l
                                   else l) pre
                  ++ setVisible true g :: post.
Proof.
  induction todo as [|l rest IH]; intros done exportCount events.
  - simpl. split; [now left|].
    intros [H|[pre [g [post [H _]]]]]; [exact H|].
    now destruct pre.
  - simpl. destruct (isLayerSet l) eqn:Hset; rewrite IH; clear IH.
    + rewrite setVisible_twice, name_setVisible. split.
      * intros [H|[pre [g [post [-> [Hg [-> ->]]]]]]].
        -- apply in_app_or in H. destruct H as [H|[H|[]]]; [now left|].
           injection H as <- <-. right. exists [], l, rest.
           repeat split; auto.
        -- right. exists (l :: pre), g, post. simpl. rewrite Hset.
           repeat split; auto. now rewrite <- app_assoc.
      * intros [H|[pre [g [post [Hsplit [Hg [-> ->]]]]]]].
        -- left. apply in_or_app. now left.
        -- destruct pre as [|x pre]; simpl in Hsplit;
             injection Hsplit as <- ->.
           ++ left. apply in_or_app. right. left. reflexivity.
           ++ right. exists pre, g, post. simpl. rewrite Hset.
              repeat split; auto. now rewrite <- app_assoc.
    + split.
      * intros [H|[pre [g [post [-> [Hg [-> ->]]]]]]]; [now left|].
        right. exists (l :: pre), g, post. simpl. rewrite Hset.
        repeat split; auto. now rewrite <- app_assoc.
      * intros [H|[pre [g [post [Hsplit [Hg [-> ->]]]]]]]; [now left|].
        destruct pre as [|x pre]; simpl in Hsplit;
          injection Hsplit as <- ->.
        -- congruence.
        -- right. exists pre, g, post. simpl. rewrite Hset.
           repeat split; auto. now rewrite <- app_assoc.
Qed.

Lemma hideIfSet_hidden ls :
  map (fun l => if isLayerSet l then setVisible false l else l)
      (map (setVisible false) ls)
  = map (setVisible false) ls.
Proof.
  rewrite map_map. apply map_ext. intros l.
  rewrite isLayerSet_setVisible, setVisible_twice.
  now destruct (isLayerSet l).
Qed.

Lemma main_events doc exportFolder :
  snd (main doc (Some exportFolder))
  = snd (exportGroups exportFolder []
           (map (setVisible false) (docLayers doc)) 0 [])
    ++ [Alert ("Exported "
               ++ numberToString (List.length (layerSets (docLayers doc)))
               ++ " groups as PNG files to:" ++ LF
               ++ fsName exportFolder)].
Proof.
  unfold main. rewrite hideAll_eq.
  pose proof (exportGroups_count exportFolder
                (map (setVisible false) (docLayers doc)) [] 0 []) as Hc.
  destruct (exportGroups exportFolder [] _ 0 []) as [[ls exportCount] events].
  simpl in Hc. subst exportCount. simpl.
  now rewrite layerSets_hidden, length_map.
Qed.

End ExportMore.

(** X12.  Export-groups writes one file per top-level layer set, in
    document order, each named after the folder and the cleaned group
    name, and then raises a single notice whose count is the number of
    top-level layer sets; nested layer sets and art layers produce no
    file.  When the folder dialog is dismissed nothing is written, no
    notice is raised and the document is returned as it was. *)
Theorem export_writes_one_file_per_top_level_group :
  forall doc,
    ExportAllGroups.main doc None = (doc, [])
    /\ forall exportFolder,
        exists saves,
          snd (ExportAllGroups.main doc (Some exportFolder))
          = saves
            ++ [Alert ("Exported "
                       ++ numberToString
                            (List.length (layerSets (docLayers doc)))
                       ++ " groups as PNG files to:" ++ LF
                       ++ ExportAllGroups.fsName exportFolder)]
          /\ notices saves = []
          /\ savedFiles saves
             = map (exportFileName exportFolder)
                   (layerSets (docLayers doc)).
Proof.
  intros doc. split; [reflexivity|].
  intros exportFolder. rewrite main_events.
  eexists. split; [reflexivity|]. split.
  - now rewrite exportGroups_notices.
  - rewrite exportGroups_savedFiles, layerSets_hidden, map_map. simpl.
    apply map_ext. intros l. apply exportFileName_setVisible.
Qed.

(** X13.  Each file is saved while the exported group is the only visible
    top-level layer.  A file with a given view is written exactly when the
    document's top-level layers split as [pre], a layer set [g], [post]:
    the file is the one named after [g], and the view has [g] visible and
    every layer of [pre] and [post] hidden, with everything below the top
    level as it was in the document. *)
Theorem export_shows_only_the_exported_group :
  forall doc exportFolder file shown,
    In (SaveAs file shown)
       (snd (ExportAllGroups.main doc (Some exportFolder)))
    <-> exists pre g post,
          docLayers doc = pre ++ g :: post /\ isLayerSet g = true
          /\ file = exportFileName exportFolder g
          /\ shown = map (setVisible false) pre
                     ++ setVisible true g :: map (setVisible false) post.
Proof.
  intros doc exportFolder file shown. rewrite main_events.
  rewrite in_app_iff, exportGroups_In_SaveAs. split.
  - intros [[[]|[pre' [g' [post' [Hsplit [Hg [-> ->]]]]]]]|[H|[]]];
      [|discriminate].
    apply map_eq_app in Hsplit.
    destruct Hsplit as [pre [tail [Hdoc [<- Htail]]]].
    apply map_eq_cons in Htail.
    destruct Htail as [g [post [-> [<- <-]]]].
    exists pre, g, post. rewrite isLayerSet_setVisible in Hg.
    rewrite hideIfSet_hidden, setVisible_twice, exportFileName_setVisible.
    repeat split; auto.
  - intros [pre [g [post [Hdoc [Hg [-> ->]]]]]]. left. right.
    exists (map (setVisible false) pre), (setVisible false g),
           (map (setVisible false) post).
    rewrite Hdoc, map_app, isLayerSet_setVisible, hideIfSet_hidden,
      setVisible_twice, exportFileName_setVisible.
    repeat split; auto.
Qed.

(** ** Clean file names *)

(** X14.  A cleaned name holds no reserved character, and cleaning is
    idempotent. *)
Theorem cleanFilename_yields_no_reserved_character :
  forall name,
    (forall i c,
        String.get i (ExportAllGroups.cleanFilename name) = Some c ->
        ~ In c reservedChars)
    /\ ExportAllGroups.cleanFilename (ExportAllGroups.cleanFilename name)
       = ExportAllGroups.cleanFilename name.
Proof.
  intros name.
  assert (Hclean : forall i c,
             String.get i (ExportAllGroups.cleanFilename name) = Some c ->
             ExportAllGroups.reservedClass c = false).
  { intros i c. rewrite cleanFilename_get.
    destruct (String.get i name) as [c0|]; simpl; [|discriminate].
    destruct (ExportAllGroups.reservedClass c0) eqn:E; intros H;
      injection H as <-; [reflexivity|exact E]. }
  split.
  - intros i c Hget Hin. apply reservedClass_In in Hin.
    rewrite (Hclean i c Hget) in Hin. discriminate.
  - apply String.get_correct. intros i. rewrite cleanFilename_get.
    destruct (String.get i (ExportAllGroups.cleanFilename name)) as [c|] eqn:E;
      [|reflexivity].
    simpl. now rewrite (Hclean i c E).
Qed.

(** ** Every script leaves the layer tree in shape *)

Section Shape.

Lemma nodeAt_map_keeps (R : Layer -> Layer -> Prop) (g : Layer -> Layer) :
  (forall l, layers (g l) = map g (layers l)) ->
  (forall l, R l (g l)) ->
  forall ls path,
    match nodeAt ls path, nodeAt (map g ls) path with
    | Some node, Some node' => R node node'
    | None, None => True
    | _, _ => False
    end.
Proof.
  intros Hg HR ls path. rewrite (nodeAt_map g Hg).
  destruct (nodeAt ls path); simpl; auto.
Qed.

Lemma toggleLayersByPrefix_layers before doc after prefixAnswer actionAnswer :
  exists layers',
    fst (ToggleVisByPrefix.toggleLayersByPrefix
           (Open before doc after) prefixAnswer actionAnswer)
    = Open before (mkDocument layers') after
    /\ (layers' = docLayers doc
        \/ exists prefix shouldShow,
             layers' = map (toggleNode prefix shouldShow) (docLayers doc)).
Proof.
  assert (Hsame : exists layers',
             Open before doc after = Open before (mkDocument layers') after
             /\ (layers' = docLayers doc
                 \/ exists prefix shouldShow,
                      layers'
                      = map (toggleNode prefix shouldShow) (docLayers doc))).
  { exists (docLayers doc). split; [now destruct doc|now left]. }
  unfold ToggleVisByPrefix.toggleLayersByPrefix.
  destruct prefixAnswer as [prefix|]; [|exact Hsame].
  destruct (negb (truthy (Some prefix))); [exact Hsame|].
  destruct actionAnswer as [action|]; [|exact Hsame].
  destruct (negb (truthy (Some action))); [exact Hsame|].
  cbv zeta.
  destruct (negb (toLowerCase action =? "show")
            && negb (toLowerCase action =? "hide"))%bool; [exact Hsame|].
  pose proof (processLayers_fst prefix (toLowerCase action =? "show")
                (docLayers doc) 0) as Hfst.
  destruct (ToggleVisByPrefix.processLayers (docLayers doc) prefix
              (toLowerCase action =? "show") 0) as [layers' matchCount].
  simpl in Hfst. subst layers'. simpl.
  eexists. split; [reflexivity|]. right. now exists prefix, (toLowerCase action =? "show").
Qed.

End Shape.

(** X15.  No script creates, removes, moves or retypes a layer, or edits
    a text.  Whatever the operation and the answers given, only the active
    document can change, and at every address of its layer tree there is a
    node afterwards exactly when there was one before, of the same kind,
    with the same text content and the same number of children. *)
Theorem operations_keep_the_layer_tree_in_shape :
  forall op before doc after,
    exists doc',
      fst (runOperation op (Open before doc after))
      = Open before doc' after
      /\ forall path,
           match nodeAt (docLayers doc) path,
                 nodeAt (docLayers doc') path with
           | Some node, Some node' =>
               kind node' = kind node
               /\ RenameGroups.contents node' = RenameGroups.contents node
               /\ List.length (layers node') = List.length (layers node)
           | None, None => True
           | _, _ => False
           end.
Proof.
  intros op before doc after.
  set (R := fun node node' : Layer =>
              kind node' = kind node
              /\ RenameGroups.contents node' = RenameGroups.contents node
              /\ List.length (layers node') = List.length (layers node)).
  assert (Hrefl : forall ls path,
             match nodeAt ls path, nodeAt ls path with
             | Some node, Some node' => R node node'
             | None, None => True
             | _, _ => False
             end).
  { intros ls path. destruct (nodeAt ls path); [|exact I].
    repeat split. }
  assert (Htoggle : forall prefix shouldShow l,
             R l (toggleNode prefix shouldShow l)).
  { intros prefix shouldShow l. unfold R.
    rewrite toggleNode_layers, length_map. destruct l; repeat split. }
  assert (Hhide : forall l, R l (HideAllTextLayers.hideTextLayer l)).
  { intros l. unfold R.
    rewrite hideTextLayer_layers, length_map, hideTextLayer_kind.
    destruct l as [n v k c|n v ls]; simpl; [|repeat split].
    destruct (LayerKind_eqb k TEXT); repeat split. }
  destruct op as [prefixAnswer actionAnswer| | |exportFolder];
    cbn [runOperation].
  - destruct (toggleLayersByPrefix_layers before doc after
                prefixAnswer actionAnswer)
      as [layers' [Heq [->|[prefix [shouldShow ->]]]]];
      rewrite Heq; eexists; (split; [reflexivity|]); simpl.
    + apply Hrefl.
    + apply (nodeAt_map_keeps R); [apply toggleNode_layers|apply Htoggle].
  - cbn [RenameGroups.run fst].
    eexists. split; [reflexivity|]. cbn [docLayers]. intros path.
    destruct path as [|i [|j rest]].
    + exact I.
    + simpl. rewrite renameGroups_nth_error.
      destruct (nth_error (docLayers doc) i) as [l|]; simpl; [|exact I].
      destruct (isLayerSet l); [|repeat split].
      unfold R. rewrite renameGroup_layers.
      unfold RenameGroups.renameGroup.
      destruct (RenameGroups.getTextFromGroup l) as [text|];
        [|repeat split].
      destruct (truthy (Some text)); [|repeat split].
      destruct l; repeat split.
    + rewrite renameGroups_nodeAt_below. apply Hrefl.
  - cbn [HideAllTextLayers.run fst].
    eexists. split; [reflexivity|]. cbn [docLayers].
    apply (nodeAt_map_keeps R); [apply hideTextLayer_layers|apply Hhide].
  - unfold ExportAllGroups.run.
    destruct exportFolder as [exportFolder|].
    + pose proof (main_document doc exportFolder) as H.
      destruct (ExportAllGroups.main doc (Some exportFolder))
        as [doc' events].
      simpl in H. subst doc'. exists doc. split; [reflexivity|].
      apply Hrefl.
    + simpl. exists doc. split; [reflexivity|]. apply Hrefl.
Qed.

(** ** The prefix test *)

Lemma prefix_iff_append p :
  forall s, String.prefix p s = true <-> exists rest, s = (p ++ rest)%string.
Proof.
  induction p as [|a p IH]; intros s.
  - split; [intros _; now exists s|intros _; now destruct s].
  - destruct s as [|b s]; simpl.
    + split; [discriminate|intros [rest H]; discriminate].
    + destruct (Ascii.ascii_dec a b) as [->|Hne].
      * rewrite IH. split; intros [rest H]; exists rest.
        -- now rewrite H.
        -- now injection H.
      * split; [discriminate|].
        intros [rest H]. injection H as H _. congruence.
Qed.

(** X16.  The test [layer.name.indexOf(prefix) === 0] of the walk holds
    exactly when the name is the prefix followed by some, possibly empty,
    rest: an occurrence of the prefix further inside the name does not
    count, and a name equal to the prefix does. *)
Theorem prefix_test_holds_iff_name_extends_prefix :
  forall layerName prefix,
    (indexOf layerName prefix =? 0)%Z = true
    <-> exists rest, layerName = (prefix ++ rest)%string.
Proof.
  intros layerName prefix. rewrite indexOf_zero_startsWith.
  apply prefix_iff_append.
Qed.
